(** * Angular guidelines MCP server: request dispatch, section extraction
      and rule-based validation ([src/index.ts])

    A shallow embedding of the handlers of [AngularGuidelinesServer].

    Conventions of the embedding.
    - A JavaScript string is a [string]: the UTF-8 text of the source
      literal or of the request argument.  Every needle the program searches
      for is ASCII, so [includes], [startsWith] and [split] decide the same
      question on the UTF-8 text as on the UTF-16 code units.
    - A value of type [string | undefined] is an [option string]; [None] is
      [undefined].  Handler arguments are strings, as the handlers' signatures
      declare them.
    - The [arguments] object of a request is a finite map from property names
      to strings; a request without [arguments] carries [None].
    - A function that may throw returns a [Completion]; an [async] handler
      that throws is a rejected request.
    - The module-level constants the handlers read are the fields of a
      [ContentStore], passed explicitly.  The server is a step function on a
      [Machine], which holds that content and the arrays the handlers
      allocate and push onto. *)

From Stdlib Require Import ZArith Lia Ascii.
From stdpp Require Import base option list strings gmap.

(** ** JavaScript primitives used by the handlers *)

Module JS.

(** The line feed, written [\n] in the source. *)
Definition LF : ascii := "010"%char.
Definition nl : string := String LF "".
(** The double quote character. *)
Definition dq : string := String "034"%char "".

(** [s.startsWith(p)]. *)
Fixpoint startsWith (s p : string) {struct p} : bool :=
  match p with
  | EmptyString => true
  | String a p' =>
      match s with
      | EmptyString => false
      | String b s' => if Ascii.eqb a b then startsWith s' p' else false
      end
  end.

(** [s.includes(needle)]: some suffix of [s] starts with [needle]. *)
Fixpoint includes (s needle : string) : bool :=
  startsWith s needle ||
  match s with
  | EmptyString => false
  | String _ s' => includes s' needle
  end.

(** [s.split(sep)] for a one-character separator. *)
Fixpoint split (sep : ascii) (s : string) : list string :=
  match s with
  | EmptyString => [EmptyString]
  | String c s' =>
      if Ascii.eqb c sep then EmptyString :: split sep s'
      else match split sep s' with
           | [] => [String c EmptyString]
           | l :: ls => String c l :: ls
           end
  end.

(** [l.join(sep)]. *)
Fixpoint join (sep : string) (l : list string) : string :=
  match l with
  | [] => ""
  | [x] => x
  | x :: xs => x +:+ sep +:+ join sep xs
  end.

(** [l.findIndex((element, index) => p)]: the first index whose element
    satisfies the callback, [-1] when there is none. *)
Fixpoint findIndex_from {A} (p : A → Z → bool) (i : Z) (l : list A) : Z :=
  match l with
  | [] => (-1)%Z
  | x :: xs => if p x i then i else findIndex_from p (i + 1)%Z xs
  end.

Definition findIndex {A} (p : A → Z → bool) (l : list A) : Z :=
  findIndex_from p 0%Z l.

(** Relative index of [Array.prototype.slice]: negative counts from the end,
    and the result is clamped to [0 .. len]. *)
Definition relative_index (len k : Z) : Z :=
  if (k <? 0)%Z then Z.max (len + k) 0 else Z.min k len.

(** [l.slice(start, end)]. *)
Definition slice {A} (l : list A) (start end_ : Z) : list A :=
  let len := Z.of_nat (length l) in
  let k := relative_index len start in
  let final := relative_index len end_ in
  take (Z.to_nat (final - k)) (drop (Z.to_nat k) l).

(** [c.toUpperCase()] on one ASCII character. *)
Definition toUpperCase_ascii (c : ascii) : ascii :=
  let n := nat_of_ascii c in
  if (97 <=? n)%nat && (n <=? 122)%nat then ascii_of_nat (n - 32) else c.

(** [s.charAt(0).toUpperCase() + s.slice(1)].  Exact when [s] is empty or
    starts with an ASCII character, which holds for every string that reaches
    this expression in [getCodeExample]. *)
Definition capitalize (s : string) : string :=
  match s with
  | EmptyString => ""
  | String c s' => String (toUpperCase_ascii c) s'
  end.

(** String conversion of a [string | undefined] in a template literal. *)
Definition template (v : option string) : string :=
  match v with
  | None => "undefined"
  | Some s => s
  end.

(** Truthiness of a [string | undefined]: [undefined] and [""] are falsy. *)
Definition truthy (v : option string) : bool :=
  match v with
  | None | Some EmptyString => false
  | Some _ => true
  end.

(** *** Exceptions and completions *)

Inductive Exception : Type :=
  | Error (message : string)
  | TypeError (message : string).

(** [error.message]. *)
Definition message (e : Exception) : string :=
  match e with
  | Error m | TypeError m => m
  end.

(** [error.name]: the name of the class the error was constructed with. *)
Definition error_name (e : Exception) : string :=
  match e with
  | Error _ => "Error"
  | TypeError _ => "TypeError"
  end.

(** The [TypeError] raised by reading property [prop] of [undefined]; the
    wording is the one of Node's engine. *)
Definition read_of_undefined (prop : string) : Exception :=
  TypeError ("Cannot read properties of undefined (reading '" +:+ prop +:+ "')").

Inductive Completion (A : Type) : Type :=
  | Return (a : A)
  | Throw (e : Exception).
Global Arguments Return {A} a.
Global Arguments Throw {A} e.

(** *** Property lookup on an object literal

    An object literal inherits from [Object.prototype], so [obj[key]] finds
    the own properties first and then the members of the prototype. *)

Inductive Builtin : Type :=
  | ObjectConstructor            (* [Object.prototype.constructor] *)
  | ObjectPrototype              (* what the [__proto__] accessor returns *)
  | NativeMethod (name : string).

Definition Object_prototype : list (string * Builtin) :=
  [ ("constructor", ObjectConstructor)
  ; ("__defineGetter__", NativeMethod "__defineGetter__")
  ; ("__defineSetter__", NativeMethod "__defineSetter__")
  ; ("hasOwnProperty", NativeMethod "hasOwnProperty")
  ; ("__lookupGetter__", NativeMethod "__lookupGetter__")
  ; ("__lookupSetter__", NativeMethod "__lookupSetter__")
  ; ("isPrototypeOf", NativeMethod "isPrototypeOf")
  ; ("propertyIsEnumerable", NativeMethod "propertyIsEnumerable")
  ; ("toString", NativeMethod "toString")
  ; ("valueOf", NativeMethod "valueOf")
  ; ("__proto__", ObjectPrototype)
  ; ("toLocaleString", NativeMethod "toLocaleString") ].

Inductive Property : Type :=
  | Own (text : string)
  | Inherited (b : Builtin)
  | Undefined.

Fixpoint assoc {V} (key : string) (l : list (string * V)) : option V :=
  match l with
  | [] => None
  | (k, v) :: rest => if String.eqb k key then Some v else assoc key rest
  end.

(** [obj[key]] for an object literal with the string-valued own properties
    [own]. *)
Definition get (own : list (string * string)) (key : string) : Property :=
  match assoc key own with
  | Some s => Own s
  | None =>
      match assoc key Object_prototype with
      | Some b => Inherited b
      | None => Undefined
      end
  end.

(** String conversion of a native function, in the engine's wording. *)
Definition native_function (name : string) : string :=
  "function " +:+ name +:+ "() { [native code] }".

Definition Builtin_toString (b : Builtin) : string :=
  match b with
  | ObjectConstructor => native_function "Object"
  | ObjectPrototype => "[object Object]"
  | NativeMethod name => native_function name
  end.

(** String conversion of a looked-up property. *)
Definition Property_toString (p : Property) : string :=
  match p with
  | Own s => s
  | Inherited b => Builtin_toString b
  | Undefined => "undefined"
  end.

(** Truthiness of a looked-up property. *)
Definition Property_truthy (p : Property) : bool :=
  match p with
  | Own s => truthy (Some s)
  | Inherited _ => true
  | Undefined => false
  end.

End JS.

Import JS.

(** ** The static content ([src/index.ts], lines 10-115) *)

(** [ANGULAR_GUIDELINES]: the guideline document, one entry per line of the template literal. *)
Definition ANGULAR_GUIDELINES : string :=
  join nl
    [ ""
    ; "# TypeScript, Angular, and Scalable Web Application Best Practices"
    ; ""
    ; "You are an expert in TypeScript, Angular, and scalable web application development. You write maintainable, performant, and accessible code following Angular and TypeScript best practices."
    ; ""
    ; "## TypeScript Best Practices"
    ; "- Use strict type checking  "
    ; "- Prefer type inference when the type is obvious  "
    ; "- Avoid the `any` type; use `unknown` when type is uncertain  "
    ; ""
    ; "## Angular Best Practices"
    ; "- Always use standalone components over NgModules  "
    ; "- Don't use explicit `standalone: true` (it is implied by default)  "
    ; "- Use signals for state management  "
    ; "- Implement lazy loading for feature routes  "
    ; "- Use `NgOptimizedImage` for all static images  "
    ; ""
    ; "## Components"
    ; "- Keep components small and focused on a single responsibility  "
    ; "- Use `input()` and `output()` functions instead of decorators  "
    ; "- Use `computed()` for derived state  "
    ; "- Set `changeDetection: ChangeDetectionStrategy.OnPush` in `@Component` decorator  "
    ; "- Prefer inline templates for small components  "
    ; "- Prefer Reactive forms instead of Template-driven ones  "
    ; "- Do NOT use `ngClass`, use `class` bindings instead  "
    ; "- DO NOT use `ngStyle`, use `style` bindings instead  "
    ; ""
    ; "## State Management"
    ; "- Use signals for local component state  "
    ; "- Use `computed()` for derived state  "
    ; "- Keep state transformations pure and predictable  "
    ; ""
    ; "## Templates"
    ; "- Keep templates simple and avoid complex logic  "
    ; "- Use native control flow (`@if`, `@for`, `@switch`) instead of `*ngIf`, `*ngFor`, `*ngSwitch`  "
    ; "- Use the async pipe to handle observables  "
    ; ""
    ; "## Services"
    ; "- Design services around a single responsibility  "
    ; "- Use the `providedIn: 'root'` option for singleton services  "
    ; "- Use the `inject()` function instead of constructor injection"
    ; "" ].

(** [CODE_EXAMPLES.component]. *)
Definition component_example : string :=
  join nl
    [ ""
    ; "// Good: Modern Angular component with signals"
    ; "import { Component, input, output, computed, ChangeDetectionStrategy } from '@angular/core';"
    ; "import { CommonModule } from '@angular/common';"
    ; ""
    ; "@Component({"
    ; "  selector: 'app-user-card',"
    ; "  template: `"
    ; "    <div class=" +:+ dq +:+ "user-card" +:+ dq +:+ " "
    ; "         [class.active]=" +:+ dq +:+ "isActive()" +:+ dq
    ; "         [style.background-color]=" +:+ dq +:+ "backgroundColor()" +:+ dq +:+ ">"
    ; "      @if (user(); as currentUser) {"
    ; "        <h3>{{ currentUser.name }}</h3>"
    ; "        <p>{{ currentUser.email }}</p>"
    ; "        @if (showActions()) {"
    ; "          <button (click)=" +:+ dq +:+ "onEdit()" +:+ dq +:+ ">Edit</button>"
    ; "        }"
    ; "      }"
    ; "    </div>"
    ; "  `,"
    ; "  changeDetection: ChangeDetectionStrategy.OnPush,"
    ; "  imports: [CommonModule]"
    ; "})"
    ; "export class UserCardComponent {"
    ; "  user = input.required<User>();"
    ; "  showActions = input(false);"
    ; "  userUpdated = output<User>();"
    ; "  "
    ; "  backgroundColor = computed(() => this.isActive() ? '#e3f2fd' : '#fff');"
    ; "  isActive = computed(() => this.user()?.status === 'active');"
    ; "  "
    ; "  onEdit() {"
    ; "    this.userUpdated.emit(this.user());"
    ; "  }"
    ; "}"
    ; "  " ].

(** [CODE_EXAMPLES.service]. *)
Definition service_example : string :=
  join nl
    [ ""
    ; "// Good: Modern Angular service with inject()"
    ; "import { Injectable, inject } from '@angular/core';"
    ; "import { HttpClient } from '@angular/common/http';"
    ; "import { Observable, signal } from 'rxjs';"
    ; ""
    ; "@Injectable({"
    ; "  providedIn: 'root'"
    ; "})"
    ; "export class UserService {"
    ; "  private http = inject(HttpClient);"
    ; "  private users = signal<User[]>([]);"
    ; "  "
    ; "  readonly users$ = this.users.asReadonly();"
    ; "  "
    ; "  loadUsers(): Observable<User[]> {"
    ; "    return this.http.get<User[]>('/api/users');"
    ; "  }"
    ; "  "
    ; "  updateUsers(users: User[]) {"
    ; "    this.users.set(users);"
    ; "  }"
    ; "}"
    ; "  " ].

(** [CODE_EXAMPLES]: the own properties of the catalog object, in order. *)
Definition CODE_EXAMPLES : list (string * string) :=
  [ ("component", component_example); ("service", service_example) ].

(** The module-level content the handlers read. *)
Record ContentStore : Type := {
  guidelines : string;
  examples : list (string * string)
}.

(** The content as the module initialises it. *)
Definition startup : ContentStore :=
  {| guidelines := ANGULAR_GUIDELINES; examples := CODE_EXAMPLES |}.

(** A five-line document with two sections and an empty catalog. *)
Definition sample_store : ContentStore :=
  {| guidelines :=
       join nl [ "# Guide"; "## State Management"; "- signals";
                 "## Templates"; "- simple" ];
     examples := [] |}.

(** ** Response shapes *)

Record ContentBlock : Type := { type : string; text : string }.

(** [isError] is [None] when the response object has no such property. *)
Record CallToolResult : Type := {
  content : list ContentBlock;
  isError : option bool
}.

Record PromptMessage : Type := { role : string; message_content : ContentBlock }.

Record GetPromptResult : Type := { messages : list PromptMessage }.

Definition text_block (s : string) : ContentBlock :=
  {| type := "text"; text := s |}.

(** [{ content: [{ type: 'text', text: s }] }]. *)
Definition text_result (s : string) : CallToolResult :=
  {| content := [text_block s]; isError := None |}.

(** [{ content: [{ type: 'text', text: s }], isError: true }]. *)
Definition error_result (s : string) : CallToolResult :=
  {| content := [text_block s]; isError := Some true |}.

(** [{ messages: [{ role: 'user', content: { type: 'text', text: s } }] }]. *)
Definition user_message (s : string) : GetPromptResult :=
  {| messages := [ {| role := "user"; message_content := text_block s |} ] |}.

(** ** [getAngularGuidelines] (lines 295-331) *)

Definition sectionMap : list (string * string) :=
  [ ("typescript", "TypeScript Best Practices")
  ; ("angular", "Angular Best Practices")
  ; ("components", "Components")
  ; ("state", "State Management")
  ; ("templates", "Templates")
  ; ("services", "Services") ].

(** Lines 310-319: the body of [if (sectionTitle)], with [sectionTitle]
    already converted to the string [includes] searches for. *)
Definition extractSection (content sectionTitle : string) : string :=
  let lines := split LF content in
  let startIndex := findIndex (λ line _, includes line sectionTitle) lines in
  let nextSectionIndex :=
    findIndex (λ line index,
                 (startIndex <? index)%Z && startsWith line "## "
                 && negb (includes line sectionTitle)) lines in
  if negb (startIndex =? -1)%Z then
    let endIndex :=
      if negb (nextSectionIndex =? -1)%Z then nextSectionIndex
      else Z.of_nat (length lines) in
    join nl (slice lines startIndex endIndex)
  else content.

Definition getAngularGuidelines (st : ContentStore) (section : option string)
  : CallToolResult :=
  let content := guidelines st in
  let content :=
    if truthy section && negb (bool_decide (section = Some "all")) then
      let sectionTitle := get sectionMap (template section) in
      if Property_truthy sectionTitle then
        extractSection content (Property_toString sectionTitle)
      else content
    else content in
  text_result content.

(** ** [getCodeExample] (lines 333-358) *)

Definition getCodeExample (st : ContentStore) (type : option string)
  : Completion CallToolResult :=
  if bool_decide (type = Some "all") then
    Return (text_result
      ("# Angular Code Examples" +:+ nl +:+ nl +:+ "## Component Example"
       +:+ Property_toString (get (examples st) "component")
       +:+ nl +:+ nl +:+ "## Service Example"
       +:+ Property_toString (get (examples st) "service")))
  else
    let example := get (examples st) (template type) in
    if negb (Property_truthy example) then
      Throw (Error ("No example available for type: " +:+ template type))
    else
      match type with
      | None => Throw (read_of_undefined "charAt")
      | Some t =>
          Return (text_result
            ("# " +:+ capitalize t +:+ " Example" +:+ nl
             +:+ Property_toString example))
      end.

(** ** [validateCode] (lines 360-416) *)

(** The messages pushed onto [issues], in the order of the source. *)
Module Issue.
Definition any_type : string :=
  "❌ Avoid using " +:+ dq +:+ "any" +:+ dq +:+ " type - use specific types or " +:+ dq +:+ "unknown" +:+ dq +:+ " instead".
Definition structural_directives : string :=
  "❌ Use native control flow (@if, @for, @switch) instead of structural directives".
Definition ngClass : string := "❌ Use [class] bindings instead of ngClass".
Definition ngStyle : string := "❌ Use [style] bindings instead of ngStyle".
Definition decorators : string :=
  "⚠️ Consider using input() and output() functions instead of decorators".
Definition OnPush : string :=
  "⚠️ Consider using OnPush change detection strategy for better performance".
Definition signals : string := "💡 Consider using signals for state management".
Definition inject : string :=
  "⚠️ Consider using inject() function instead of constructor injection".
Definition providedIn : string :=
  "💡 Consider using providedIn: " +:+ dq +:+ "root" +:+ dq +:+ " for singleton services".
End Issue.

(** The headline of a validation without findings. *)
Definition success_banner : string := "✅ Code looks good! No major issues found.".

(** The [issues] array as it stands at line 403, for a [code] that is a
    string.  Each [let] is one [if (...) issues.push(...)] of the source. *)
Definition findings (code : string) (type : option string) : list string :=
  let issues : list string := [] in
  let issues :=
    if includes code "any" then issues ++ [Issue.any_type] else issues in
  let issues :=
    if includes code "*ngIf" || includes code "*ngFor"
       || includes code "*ngSwitch"
    then issues ++ [Issue.structural_directives] else issues in
  let issues :=
    if includes code "ngClass" then issues ++ [Issue.ngClass] else issues in
  let issues :=
    if includes code "ngStyle" then issues ++ [Issue.ngStyle] else issues in
  let issues :=
    if includes code "@Input()" || includes code "@Output()"
    then issues ++ [Issue.decorators] else issues in
  let issues :=
    if bool_decide (type = Some "component") then
      let issues :=
        if negb (includes code "ChangeDetectionStrategy.OnPush")
        then issues ++ [Issue.OnPush] else issues in
      if negb (includes code "signal(") && negb (includes code "computed(")
      then issues ++ [Issue.signals] else issues
    else issues in
  if bool_decide (type = Some "service") then
    let issues :=
      if negb (includes code "inject(")
      then issues ++ [Issue.inject] else issues in
    if negb (includes code "providedIn: 'root'")
    then issues ++ [Issue.providedIn] else issues
  else issues.

(** Lines 404-406: the response text for the findings [issues]. *)
Definition validation_report (st : ContentStore) (issues : list string)
  : string :=
  if (0 <? length issues)%nat then
    "# Code Validation Results" +:+ nl +:+ nl +:+ "## Issues Found:" +:+ nl
    +:+ join nl (map (λ issue, "- " +:+ issue) issues)
    +:+ nl +:+ nl +:+ "## Guidelines:" +:+ nl +:+ guidelines st
  else
    "# Code Validation Results" +:+ nl +:+ nl +:+ success_banner
    +:+ nl +:+ nl +:+ "## Guidelines:" +:+ nl +:+ guidelines st.

(** [code.includes] on an absent [code] throws before anything else runs. *)
Definition validateCode (st : ContentStore) (code type : option string)
  : Completion CallToolResult :=
  match code with
  | None => Throw (read_of_undefined "includes")
  | Some code =>
      let issues := findings code type in
      let result := validation_report st issues in
      Return (text_result result)
  end.

(** ** Dispatch (lines 193-221 and 259-292) *)

(** [args?.key]. *)
Definition arg (args : option (gmap string string)) (key : string)
  : option string :=
  args ≫= (.!! key).

(** The handler registered for [CallToolRequestSchema]: the [switch] runs
    inside [try], and [catch] builds the error response. *)
Definition call_tool (st : ContentStore) (name : string)
    (args : option (gmap string string)) : CallToolResult :=
  let attempt : Completion CallToolResult :=
    if bool_decide (name = "get_angular_guidelines") then
      Return (getAngularGuidelines st (arg args "section"))
    else if bool_decide (name = "get_code_example") then
      getCodeExample st (arg args "type")
    else if bool_decide (name = "validate_angular_code") then
      validateCode st (arg args "code") (arg args "type")
    else Throw (Error ("Unknown tool: " +:+ name)) in
  match attempt with
  | Return response => response
  | Throw error => error_result ("Error: " +:+ message error)
  end.

(** The handler registered for [GetPromptRequestSchema]: nothing catches the
    [throw] of the default case. *)
Definition get_prompt (st : ContentStore) (name : string)
    (args : option (gmap string string)) : Completion GetPromptResult :=
  if bool_decide (name = "angular_code_review") then
    Return (user_message
      ("Please review this Angular/TypeScript code for best practices compliance:"
       +:+ nl +:+ nl +:+ template (arg args "code") +:+ nl +:+ nl
       +:+ "Check against these guidelines:" +:+ nl +:+ guidelines st
       +:+ nl +:+ nl +:+ "Provide specific feedback on what can be improved."))
  else if bool_decide (name = "create_angular_component") then
    Return (user_message
      ("Create a new Angular component named " +:+ dq
       +:+ template (arg args "componentName") +:+ dq
       +:+ " following these best practices:" +:+ nl +:+ guidelines st
       +:+ nl +:+ nl +:+ "Features requested: "
       +:+ (if truthy (arg args "features")
            then template (arg args "features")
            else "Basic component structure")
       +:+ nl +:+ nl
       +:+ "Ensure the component uses modern Angular features like signals, standalone components, and proper TypeScript typing."))
  else Throw (Error ("Unknown prompt: " +:+ name)).

(** ** The server as a step function *)

Inductive Request : Type :=
  | CallTool (name : string) (args : option (gmap string string))
  | GetPrompt (name : string) (args : option (gmap string string)).

Inductive Response : Type :=
  | ToolResponse (r : CallToolResult)
  | PromptResponse (r : GetPromptResult)
  | Rejected (e : Exception).

(** What the caller of a request observes. *)
Definition respond (st : ContentStore) (req : Request) : Response :=
  match req with
  | CallTool name args => ToolResponse (call_tool st name args)
  | GetPrompt name args =>
      match get_prompt st name args with
      | Return r => PromptResponse r
      | Throw e => Rejected e
      end
  end.

(** ** The server as a machine *)

(** What a handler can see or change while it runs: the content of the
    module, and the arrays allocated so far, an array being known by its
    index in [arrays]. *)
Record Machine : Type := {
  module_content : ContentStore;
  arrays : list (list string)
}.

(** A computation that runs on the machine: it returns or throws, and
    leaves a machine behind. *)
Definition Run (A : Type) : Type := Machine → Completion A * Machine.

Global Instance Run_ret : MRet Run := λ A (a : A) m, (Return a, m).

Global Instance Run_bind : MBind Run := λ A B (k : A → Run B) (c : Run A) m,
  match c m with
  | (Return a, m') => k a m'
  | (Throw e, m') => (Throw e, m')
  end.

(** [throw e]. *)
Definition throw {A} (e : Exception) : Run A := λ m, (Throw e, m).

(** [try { c } catch (error) { handler }]. *)
Definition try_catch {A} (c : Run A) (handler : Exception → Run A) : Run A :=
  λ m, match c m with
       | (Return a, m') => (Return a, m')
       | (Throw e, m') => handler e m'
       end.

(** A read of the module-level constants. *)
Definition read_content : Run ContentStore :=
  λ m, (Return (module_content m), m).

(** The array literal [[]]: a new, empty array. *)
Definition new_array : Run nat :=
  λ m, (Return (length (arrays m)),
        {| module_content := module_content m;
           arrays := arrays m ++ [[]] |}).

(** [array.push(item)]. *)
Definition push (array : nat) (item : string) : Run unit :=
  λ m, (Return tt,
        {| module_content := module_content m;
           arrays := alter (λ items, items ++ [item]) array (arrays m) |}).

(** The items of [array], as [array.length] and [array.map] read them. *)
Definition read_array (array : nat) : Run (list string) :=
  λ m, (Return (default [] (arrays m !! array)), m).

(** [if (b) { c }]. *)
Definition when (b : bool) (c : Run unit) : Run unit :=
  if b then c else mret tt.

(** A function of the pure embedding called from a handler. *)
Definition lift {A} (c : Completion A) : Run A :=
  match c with
  | Return a => mret a
  | Throw e => throw e
  end.

(** [validateCode] statement by statement (lines 360-416): [issues] is an
    array allocated by the call, and every finding is pushed onto it. *)
Definition validateCode_run (code type : option string) : Run CallToolResult :=
  issues ← new_array;
  match code with
  | None => throw (read_of_undefined "includes")
  | Some code =>
      when (includes code "any") (push issues Issue.any_type);;
      when (includes code "*ngIf" || includes code "*ngFor"
            || includes code "*ngSwitch")
        (push issues Issue.structural_directives);;
      when (includes code "ngClass") (push issues Issue.ngClass);;
      when (includes code "ngStyle") (push issues Issue.ngStyle);;
      when (includes code "@Input()" || includes code "@Output()")
        (push issues Issue.decorators);;
      when (bool_decide (type = Some "component"))
        (when (negb (includes code "ChangeDetectionStrategy.OnPush"))
           (push issues Issue.OnPush);;
         when (negb (includes code "signal(")
               && negb (includes code "computed("))
           (push issues Issue.signals));;
      when (bool_decide (type = Some "service"))
        (when (negb (includes code "inject(")) (push issues Issue.inject);;
         when (negb (includes code "providedIn: 'root'"))
           (push issues Issue.providedIn));;
      found ← read_array issues;
      content ← read_content;
      mret (text_result (validation_report content found))
  end.

(** [getAngularGuidelines] and [getCodeExample] read the constants and
    allocate nothing that they change. *)
Definition getAngularGuidelines_run (section : option string)
  : Run CallToolResult :=
  content ← read_content;
  mret (getAngularGuidelines content section).

Definition getCodeExample_run (type : option string) : Run CallToolResult :=
  content ← read_content;
  lift (getCodeExample content type).

(** The handler registered for [CallToolRequestSchema], on the machine. *)
Definition call_tool_run (name : string) (args : option (gmap string string))
  : Run CallToolResult :=
  try_catch
    (if bool_decide (name = "get_angular_guidelines") then
       getAngularGuidelines_run (arg args "section")
     else if bool_decide (name = "get_code_example") then
       getCodeExample_run (arg args "type")
     else if bool_decide (name = "validate_angular_code") then
       validateCode_run (arg args "code") (arg args "type")
     else throw (Error ("Unknown tool: " +:+ name)))
    (λ error, mret (error_result ("Error: " +:+ message error))).

(** The handler registered for [GetPromptRequestSchema], on the machine. *)
Definition get_prompt_run (name : string) (args : option (gmap string string))
  : Run GetPromptResult :=
  content ← read_content;
  lift (get_prompt content name args).

(** One request: what the caller observes, and the machine the next request
    runs on. *)
Definition step (m : Machine) (req : Request) : Response * Machine :=
  match req with
  | CallTool name args =>
      match call_tool_run name args m with
      | (Return r, m') => (ToolResponse r, m')
      | (Throw e, m') => (Rejected e, m')
      end
  | GetPrompt name args =>
      match get_prompt_run name args m with
      | (Return r, m') => (PromptResponse r, m')
      | (Throw e, m') => (Rejected e, m')
      end
  end.

(** A session: the requests are served one at a time, in order. *)
Fixpoint serve (m : Machine) (reqs : list Request) : list Response :=
  match reqs with
  | [] => []
  | req :: rest =>
      let '(response, m') := step m req in
      response :: serve m' rest
  end.

(** The machine [m] after the allocation of the arrays [fresh]. *)
Definition grown (m : Machine) (fresh : list (list string)) : Machine :=
  {| module_content := module_content m; arrays := arrays m ++ fresh |}.

(** A machine on which earlier calls have left two arrays. *)
Definition used_machine : Machine :=
  {| module_content := startup;
     arrays := [ [ Issue.any_type ]; [] ] |}.

(** ** Vocabulary of the statements *)

(** The number of positions of [s] at which [needle] occurs. *)
Fixpoint occurrences (s needle : string) : nat :=
  (if startsWith s needle then 1 else 0) +
  match s with
  | EmptyString => 0
  | String _ s' => occurrences s' needle
  end.

(** A top-level subsection heading that does not carry the phrase [title]:
    the line at which a section ends. *)
Definition boundary (title line : string) : bool :=
  startsWith line "## " && negb (includes line title).

(** The names the two [switch] statements know. *)
Definition tool_names : list string :=
  [ "get_angular_guidelines"; "get_code_example"; "validate_angular_code" ].

Definition prompt_names : list string :=
  [ "angular_code_review"; "create_angular_component" ].

(** ** The listings (lines 138-191 and 225-257) *)

(** One entry of [properties] in an [inputSchema]; [enum] is [None] when the
    property has no [enum]. *)
Record PropertySchema : Type := {
  property_type : string;
  property_description : string;
  enum : option (list string)
}.

(** An [inputSchema]; [required] is [None] when the schema has no such
    property. *)
Record InputSchema : Type := {
  schema_type : string;
  properties : list (string * PropertySchema);
  required : option (list string)
}.

Record ToolSpec : Type := {
  tool_name : string;
  tool_description : string;
  inputSchema : InputSchema
}.

(** The [tools] array the handler registered for [ListToolsRequestSchema]
    returns. *)
Definition list_tools : list ToolSpec :=
  [ {| tool_name := "get_angular_guidelines";
       tool_description :=
         "Get comprehensive Angular and TypeScript best practices guidelines";
       inputSchema :=
         {| schema_type := "object";
            properties :=
              [ ("section",
                 {| property_type := "string";
                    property_description :=
                      "Specific section to focus on (optional)";
                    enum := Some [ "typescript"; "angular"; "components";
                                   "state"; "templates"; "services"; "all" ]
                 |}) ];
            required := None |} |};
    {| tool_name := "get_code_example";
       tool_description := "Get code examples following Angular best practices";
       inputSchema :=
         {| schema_type := "object";
            properties :=
              [ ("type",
                 {| property_type := "string";
                    property_description := "Type of code example to get";
                    enum := Some [ "component"; "service"; "all" ] |}) ];
            required := Some [ "type" ] |} |};
    {| tool_name := "validate_angular_code";
       tool_description :=
         "Validate Angular/TypeScript code against best practices";
       inputSchema :=
         {| schema_type := "object";
            properties :=
              [ ("code",
                 {| property_type := "string";
                    property_description := "The code to validate";
                    enum := None |});
                ("type",
                 {| property_type := "string";
                    property_description :=
                      "Type of code (component, service, etc.)";
                    enum := Some [ "component"; "service"; "general" ] |}) ];
            required := Some [ "code" ] |} |} ].

Record PromptArgument : Type := {
  argument_name : string;
  argument_description : string;
  argument_required : bool
}.

Record PromptSpec : Type := {
  prompt_name : string;
  prompt_description : string;
  arguments : list PromptArgument
}.

(** The [prompts] array the handler registered for
    [ListPromptsRequestSchema] returns. *)
Definition list_prompts : list PromptSpec :=
  [ {| prompt_name := "angular_code_review";
       prompt_description :=
         "Review Angular/TypeScript code for best practices compliance";
       arguments :=
         [ {| argument_name := "code";
              argument_description := "The code to review";
              argument_required := true |} ] |};
    {| prompt_name := "create_angular_component";
       prompt_description :=
         "Create a new Angular component following best practices";
       arguments :=
         [ {| argument_name := "componentName";
              argument_description := "Name of the component to create";
              argument_required := true |};
           {| argument_name := "features";
              argument_description :=
                "Features the component should have (inputs, outputs, etc.)";
              argument_required := false |} ] |} ].

(** ** Further vocabulary of the statements *)

(** [args] respects [schema]: every required property is present, and a
    present property that has an [enum] takes one of its values. *)
Definition conforms (schema : InputSchema) (args : option (gmap string string))
  : Prop :=
  (∀ key, key ∈ default [] (required schema) → is_Some (arg args key))
  ∧ (∀ key p values v,
       (key, p) ∈ properties schema → enum p = Some values →
       arg args key = Some v → v ∈ values).

(** The rules of [validateCode] as a table: the condition under which a
    message is pushed, and the message, in the order of the source. *)
Definition rule_table : list ((string → option string → bool) * string) :=
  [ (λ code _, includes code "any", Issue.any_type);
    (λ code _, includes code "*ngIf" || includes code "*ngFor"
               || includes code "*ngSwitch",
     Issue.structural_directives);
    (λ code _, includes code "ngClass", Issue.ngClass);
    (λ code _, includes code "ngStyle", Issue.ngStyle);
    (λ code _, includes code "@Input()" || includes code "@Output()",
     Issue.decorators);
    (λ code type, bool_decide (type = Some "component")
                  && negb (includes code "ChangeDetectionStrategy.OnPush"),
     Issue.OnPush);
    (λ code type, bool_decide (type = Some "component")
                  && (negb (includes code "signal(")
                      && negb (includes code "computed(")),
     Issue.signals);
    (λ code type, bool_decide (type = Some "service")
                  && negb (includes code "inject("),
     Issue.inject);
    (λ code type, bool_decide (type = Some "service")
                  && negb (includes code "providedIn: 'root'"),
     Issue.providedIn) ].

(** The messages of the rules of a table whose condition holds, in order. *)
Fixpoint fired (table : list ((string → option string → bool) * string))
    (code : string) (type : option string) : list string :=
  match table with
  | [] => []
  | (condition, issue) :: rest =>
      if condition code type then issue :: fired rest code type
      else fired rest code type
  end.

(** The string is empty or its first character is an ASCII character: the
    strings on which [capitalize] is [charAt(0).toUpperCase() + slice(1)]. *)
Definition starts_ascii (s : string) : bool :=
  match s with
  | EmptyString => true
  | String c _ => (nat_of_ascii c <? 128)%nat
  end.

(** The keys for which [CODE_EXAMPLES[key]] at startup is not [undefined],
    and ["all"], which [getCodeExample] tests first. *)
Definition answered_example_keys : list string :=
  "all" :: CODE_EXAMPLES.*1 ++ Object_prototype.*1.

(** ** Facts about the primitives *)

Section StringFacts.

Lemma append_nil_l (s : string) : "" +:+ s = s.
Proof. reflexivity. Qed.

Lemma append_cons (c : ascii) (s t : string) :
  String c s +:+ t = String c (s +:+ t).
Proof. reflexivity. Qed.

Lemma append_nil_r (s : string) : s +:+ "" = s.
Proof.
  induction s as [|c s IH]; [reflexivity|].
  now rewrite append_cons, IH.
Qed.

Lemma append_assoc (a b c : string) : (a +:+ b) +:+ c = a +:+ (b +:+ c).
Proof.
  induction a as [|x a IH]; [reflexivity|].
  now rewrite !append_cons, IH.
Qed.

Lemma startsWith_append (p post : string) : startsWith (p +:+ post) p = true.
Proof.
  induction p as [|a p IH]; [reflexivity|].
  rewrite append_cons. simpl. now rewrite Ascii.eqb_refl.
Qed.

Lemma startsWith_inv (s p : string) :
  startsWith s p = true → ∃ post, s = p +:+ post.
Proof.
  revert s; induction p as [|a p IH]; intros s H; simpl in *.
  - now exists s.
  - destruct s as [|b s]; [discriminate|].
    destruct (Ascii.eqb_spec a b) as [->|]; [|discriminate].
    destruct (IH _ H) as [post ->]. now exists post.
Qed.

Lemma startsWith_spec (s p : string) :
  startsWith s p = true ↔ ∃ post, s = p +:+ post.
Proof.
  split; [apply startsWith_inv|].
  intros [post ->]. apply startsWith_append.
Qed.

Lemma includes_startsWith (s needle : string) :
  startsWith s needle = true → includes s needle = true.
Proof. intros H. destruct s; simpl in *; now rewrite H. Qed.

Lemma includes_append (pre needle post : string) :
  includes (pre +:+ needle +:+ post) needle = true.
Proof.
  induction pre as [|c pre IH].
  - rewrite append_nil_l. apply includes_startsWith, startsWith_append.
  - rewrite append_cons. simpl. rewrite IH. apply orb_true_r.
Qed.

Lemma includes_inv (s needle : string) :
  includes s needle = true → ∃ pre post, s = pre +:+ needle +:+ post.
Proof.
  induction s as [|c s IH]; simpl; intros H.
  - rewrite orb_false_r in H.
    destruct (startsWith_inv _ _ H) as [post E]. now exists "", post.
  - apply orb_true_iff in H as [H|H].
    + destruct (startsWith_inv _ _ H) as [post E]. now exists "", post.
    + destruct (IH H) as (pre & post & ->). now exists (String c pre), post.
Qed.

(** [includes] is the substring test. *)
Lemma includes_spec (s needle : string) :
  includes s needle = true ↔ ∃ pre post, s = pre +:+ needle +:+ post.
Proof.
  split; [apply includes_inv|].
  intros (pre & post & ->). apply includes_append.
Qed.

End StringFacts.

Section LookupFacts.
Context {V : Type}.

Lemma assoc_Some (key : string) (l : list (string * V)) (v : V) :
  assoc key l = Some v → (key, v) ∈ l.
Proof.
  induction l as [|[k w] l IH]; simpl; [discriminate|].
  destruct (String.eqb_spec k key) as [->|_].
  - intros [= ->]. left.
  - intros H. right. auto.
Qed.

Lemma assoc_None (key : string) (l : list (string * V)) :
  assoc key l = None → key ∉ l.*1.
Proof.
  induction l as [|[k w] l IH]; simpl.
  - intros _. apply not_elem_of_nil.
  - destruct (String.eqb_spec k key) as [->|Hne]; [discriminate|].
    intros H. apply not_elem_of_cons. split; [congruence | auto].
Qed.

End LookupFacts.

Section FindIndexFacts.
Context {A : Type}.
Implicit Types (l before rest : list A) (i start : Z).

Lemma findIndex_from_ext (p q : A → Z → bool) i l :
  (∀ x k, p x k = q x k) → findIndex_from p i l = findIndex_from q i l.
Proof.
  intros E. revert i; induction l as [|x l IH]; intros i; simpl;
    [reflexivity|]. rewrite E, IH. reflexivity.
Qed.

(** The callback fails on every element: [-1]. *)
Lemma findIndex_from_none (q : A → bool) i l :
  Forall (λ x, q x = false) l → findIndex_from (λ x _, q x) i l = (-1)%Z.
Proof.
  intros H. revert i; induction H as [|x l Hx _ IH]; intros i; simpl;
    [reflexivity|]. rewrite Hx. apply IH.
Qed.

(** The callback first succeeds after [before]: the length of [before]. *)
Lemma findIndex_from_first (q : A → bool) i before x rest :
  Forall (λ y, q y = false) before → q x = true →
  findIndex_from (λ y _, q y) i (before ++ x :: rest)
  = (i + Z.of_nat (length before))%Z.
Proof.
  intros H Hx. revert i; induction H as [|y l Hy _ IH]; intros i; simpl.
  - rewrite Hx. lia.
  - rewrite Hy, IH. lia.
Qed.

(** Elements at indices up to [start] never satisfy a callback guarded by
    [index > start]. *)
Lemma findIndex_from_guard_skip (q : A → bool) start i before rest :
  (i + Z.of_nat (length before) <= start + 1)%Z →
  findIndex_from (λ y k, (start <? k)%Z && q y) i (before ++ rest)
  = findIndex_from (λ y k, (start <? k)%Z && q y)
      (i + Z.of_nat (length before))%Z rest.
Proof.
  revert i; induction before as [|y l IH]; intros i H; simpl in *.
  - f_equal. lia.
  - replace (start <? i)%Z with false by (symmetry; apply Z.ltb_ge; lia).
    simpl. rewrite IH by lia. f_equal. lia.
Qed.

(** Beyond [start] the guard is true and only the element matters. *)
Lemma findIndex_from_guard_pass (q : A → bool) start i l :
  (start < i)%Z →
  findIndex_from (λ y k, (start <? k)%Z && q y) i l
  = findIndex_from (λ y _, q y) i l.
Proof.
  revert i; induction l as [|y l IH]; intros i H; simpl; [reflexivity|].
  replace (start <? i)%Z with true by (symmetry; apply Z.ltb_lt; lia).
  simpl. rewrite IH by lia. reflexivity.
Qed.

Lemma slice_take_drop l (i j : nat) :
  (i <= j)%nat → (j <= length l)%nat →
  slice l (Z.of_nat i) (Z.of_nat j) = take (j - i) (drop i l).
Proof.
  intros Hij Hj. unfold slice, relative_index.
  replace (Z.of_nat i <? 0)%Z with false by (symmetry; apply Z.ltb_ge; lia).
  replace (Z.of_nat j <? 0)%Z with false by (symmetry; apply Z.ltb_ge; lia).
  rewrite !Z.min_l by lia.
  rewrite Nat2Z.id. f_equal. lia.
Qed.

End FindIndexFacts.

(** ** Section extraction on an arbitrary document *)

Section ExtractSection.
Variables (content title : string).

Let lines := split LF content.

(** The second [findIndex] of [extractSection], with its callback written
    as a guard on the index and a test of the line. *)
Lemma nextSectionIndex_guarded (startIndex : Z) :
  findIndex (λ line index,
               (startIndex <? index)%Z && startsWith line "## "
               && negb (includes line title)) lines
  = findIndex_from (λ line index, (startIndex <? index)%Z && boundary title line)
      0%Z lines.
Proof.
  apply findIndex_from_ext. intros x k. unfold boundary.
  symmetry. apply andb_assoc.
Qed.

Lemma startIndex_found (before rest : list string) (h : string) :
  lines = before ++ h :: rest →
  Forall (λ l, includes l title = false) before →
  includes h title = true →
  findIndex (λ line _, includes line title) lines
  = Z.of_nat (length before).
Proof.
  intros E Hb Hh. unfold findIndex. rewrite E.
  rewrite (findIndex_from_first (λ l, includes l title)) by assumption.
  lia.
Qed.

(** The phrase occurs in no line: the document is returned as it is. *)
Lemma extractSection_absent :
  Forall (λ l, includes l title = false) lines →
  extractSection content title = content.
Proof.
  intros H. unfold extractSection. cbv zeta. fold lines.
  unfold findIndex at 1 3.
  rewrite (findIndex_from_none (λ l, includes l title)) by assumption.
  reflexivity.
Qed.

(** A boundary line follows the start: the section stops before it. *)
Lemma extractSection_bounded (before body after : list string) (h b : string) :
  lines = before ++ h :: body ++ b :: after →
  Forall (λ l, includes l title = false) before →
  includes h title = true →
  Forall (λ l, boundary title l = false) body →
  boundary title b = true →
  extractSection content title = join nl (h :: body).
Proof.
  intros E Hb Hh Hbody Hbd. unfold extractSection. cbv zeta. fold lines.
  rewrite (startIndex_found before (body ++ b :: after) h) by assumption.
  rewrite nextSectionIndex_guarded.
  assert (findIndex_from
            (λ line index,
               (Z.of_nat (length before) <? index)%Z && boundary title line)
            0%Z lines
          = Z.of_nat (length before + 1 + length body)) as ->.
  { rewrite E.
    change (before ++ h :: body ++ b :: after)
      with (before ++ [h] ++ body ++ b :: after).
    rewrite (assoc_L (++) before [h]).
    rewrite findIndex_from_guard_skip
      by (rewrite length_app; simpl; lia).
    rewrite findIndex_from_guard_pass
      by (rewrite length_app; simpl; lia).
    rewrite (findIndex_from_first (boundary title)) by assumption.
    rewrite length_app. simpl. lia. }
  replace (Z.of_nat (length before) =? -1)%Z with false
    by (symmetry; apply Z.eqb_neq; lia).
  replace (Z.of_nat (length before + 1 + length body) =? -1)%Z with false
    by (symmetry; apply Z.eqb_neq; lia).
  simpl negb. cbv iota.
  rewrite slice_take_drop
    by (try lia; rewrite E, !length_app; simpl; rewrite length_app; simpl; lia).
  rewrite E, drop_app_length.
  replace (length before + 1 + length body - length before)
    with (S (length body)) by lia.
  rewrite firstn_cons, take_app_length. reflexivity.
Qed.

(** No boundary line follows the start: the section runs to the end. *)
Lemma extractSection_to_end (before rest : list string) (h : string) :
  lines = before ++ h :: rest →
  Forall (λ l, includes l title = false) before →
  includes h title = true →
  Forall (λ l, boundary title l = false) rest →
  extractSection content title = join nl (h :: rest).
Proof.
  intros E Hb Hh Hrest. unfold extractSection. cbv zeta. fold lines.
  rewrite (startIndex_found before rest h) by assumption.
  rewrite nextSectionIndex_guarded.
  assert (findIndex_from
            (λ line index,
               (Z.of_nat (length before) <? index)%Z && boundary title line)
            0%Z lines
          = (-1)%Z) as ->.
  { rewrite E.
    change (before ++ h :: rest) with (before ++ [h] ++ rest).
    rewrite (assoc_L (++) before [h]).
    rewrite findIndex_from_guard_skip
      by (rewrite length_app; simpl; lia).
    rewrite findIndex_from_guard_pass
      by (rewrite length_app; simpl; lia).
    apply (findIndex_from_none (boundary title)). assumption. }
  replace (Z.of_nat (length before) =? -1)%Z with false
    by (symmetry; apply Z.eqb_neq; lia).
  simpl negb. cbv iota.
  rewrite slice_take_drop
    by (rewrite E, length_app; simpl; lia).
  rewrite E, drop_app_length.
  rewrite take_ge; [reflexivity|].
  rewrite length_app. simpl. lia.
Qed.

End ExtractSection.

(** ** Dispatch of unknown names *)

(** C1. A tool name outside the three registered ones gets an error-flagged
    response whose single text block is [Error: Unknown tool: <name>]; the
    dispatcher returns it, nothing is thrown.  A prompt name outside the two
    registered ones makes [get_prompt] throw [Unknown prompt: <name>], and the
    caller sees a rejected request, not a content response. *)
Theorem unknown_tool_enveloped_unknown_prompt_rejected
    (st : ContentStore) (name : string) (args : option (gmap string string)) :
  (name ∉ tool_names →
     call_tool st name args
     = {| content := [ {| type := "text";
                          text := "Error: Unknown tool: " +:+ name |} ];
          isError := Some true |}
     ∧ respond st (CallTool name args)
       = ToolResponse (error_result ("Error: Unknown tool: " +:+ name)))
  ∧ (name ∉ prompt_names →
     get_prompt st name args = Throw (Error ("Unknown prompt: " +:+ name))
     ∧ respond st (GetPrompt name args)
       = Rejected (Error ("Unknown prompt: " +:+ name))).
Proof.
  split; intros H.
  - assert (call_tool st name args
            = error_result ("Error: Unknown tool: " +:+ name)) as E.
    { unfold call_tool, tool_names in *.
      repeat (apply not_elem_of_cons in H as [? H]).
      rewrite !bool_decide_eq_false_2 by assumption. reflexivity. }
    split; [exact E | simpl; now rewrite E].
  - assert (get_prompt st name args
            = Throw (Error ("Unknown prompt: " +:+ name))) as E.
    { unfold get_prompt, prompt_names in *.
      repeat (apply not_elem_of_cons in H as [? H]).
      rewrite !bool_decide_eq_false_2 by assumption. reflexivity. }
    split; [exact E | simpl; now rewrite E].
Qed.

Lemma unknown_tool_enveloped_unknown_prompt_rejected_witness :
  call_tool startup "delete_everything" None
  = error_result "Error: Unknown tool: delete_everything"
  ∧ get_prompt startup "angular_refactor" (Some ∅)
    = Throw (Error "Unknown prompt: angular_refactor").
Proof.
  split.
  - apply (unknown_tool_enveloped_unknown_prompt_rejected
             startup "delete_everything" None).
    unfold tool_names. rewrite !not_elem_of_cons.
    repeat split; try discriminate. apply not_elem_of_nil.
  - apply (unknown_tool_enveloped_unknown_prompt_rejected
             startup "angular_refactor" (Some ∅)).
    unfold prompt_names. rewrite !not_elem_of_cons.
    repeat split; try discriminate. apply not_elem_of_nil.
Defined.

(** ** The validation rules *)

(** C3. For [code = "let x: any = 1"] and [type = "component"] the engine
    finds exactly three issues, in the order of the rules: the [any] type,
    the missing [OnPush] marker, the missing [signal(]/[computed(] call; and
    the tool reports exactly these three. *)
Theorem validate_any_component_three_findings :
  findings "let x: any = 1" (Some "component")
  = [ Issue.any_type; Issue.OnPush; Issue.signals ]
  ∧ call_tool startup "validate_angular_code"
      (Some {[ "code" := "let x: any = 1"; "type" := "component" ]})
    = text_result
        (validation_report startup
           [ Issue.any_type; Issue.OnPush; Issue.signals ]).
Proof. split; vm_compute; reflexivity. Qed.

(** C4. The component entry of the example catalog, validated as a
    component, has no finding, and the response is the success banner followed
    by the guideline document.  In general the response text is the headline,
    then either the banner (no finding) or one bullet per finding, then the
    guideline document of the store, verbatim. *)
Theorem validate_report_banner_or_bullets :
  findings component_example (Some "component") = []
  ∧ validateCode startup (Some component_example) (Some "component")
    = Return (text_result
        ("# Code Validation Results" +:+ nl +:+ nl +:+ success_banner
         +:+ nl +:+ nl +:+ "## Guidelines:" +:+ nl +:+ ANGULAR_GUIDELINES))
  ∧ call_tool startup "validate_angular_code"
      (Some {[ "code" := component_example; "type" := "component" ]})
    = text_result
        ("# Code Validation Results" +:+ nl +:+ nl +:+ success_banner
         +:+ nl +:+ nl +:+ "## Guidelines:" +:+ nl +:+ ANGULAR_GUIDELINES)
  ∧ (∀ st code type,
       findings code type = [] →
       validateCode st (Some code) type
       = Return (text_result
           ("# Code Validation Results" +:+ nl +:+ nl +:+ success_banner
            +:+ nl +:+ nl +:+ "## Guidelines:" +:+ nl +:+ guidelines st)))
  ∧ (∀ st code type,
       findings code type ≠ [] →
       validateCode st (Some code) type
       = Return (text_result
           ("# Code Validation Results" +:+ nl +:+ nl +:+ "## Issues Found:"
            +:+ nl
            +:+ join nl (map (λ issue, "- " +:+ issue) (findings code type))
            +:+ nl +:+ nl +:+ "## Guidelines:" +:+ nl +:+ guidelines st))).
Proof.
  assert (findings component_example (Some "component") = []) as E
    by (vm_compute; reflexivity).
  split; [exact E|]. split; [|split; [|split]].
  - unfold validateCode, validation_report. rewrite E. reflexivity.
  - vm_compute. reflexivity.
  - intros st code type H. unfold validateCode, validation_report.
    rewrite H. reflexivity.
  - intros st code type H. unfold validateCode, validation_report.
    destruct (findings code type); [congruence | reflexivity].
Qed.

Lemma validate_report_banner_or_bullets_witness :
  validateCode startup (Some "const n = 1;") None
  = Return (text_result
      ("# Code Validation Results" +:+ nl +:+ nl +:+ success_banner
       +:+ nl +:+ nl +:+ "## Guidelines:" +:+ nl +:+ ANGULAR_GUIDELINES))
  ∧ validateCode startup (Some "<div [ngClass]=c></div>") (Some "general")
    = Return (text_result
        ("# Code Validation Results" +:+ nl +:+ nl +:+ "## Issues Found:"
         +:+ nl +:+ "- " +:+ Issue.ngClass
         +:+ nl +:+ nl +:+ "## Guidelines:" +:+ nl +:+ ANGULAR_GUIDELINES)).
Proof.
  split.
  - apply (proj1 (proj2 (proj2 (proj2 validate_report_banner_or_bullets)))
             startup "const n = 1;" None).
    vm_compute. reflexivity.
  - apply (proj2 (proj2 (proj2 (proj2 validate_report_banner_or_bullets)))
             startup "<div [ngClass]=c></div>" (Some "general")).
    vm_compute. discriminate.
Defined.

(** C6. On a [code] that is a string, whatever the string and the category,
    the engine returns and the tool answers with the report of the findings,
    not flagged as an error.  On an absent [code] the first [code.includes]
    throws, and the dispatcher turns it into the error-flagged response.  So
    the response is flagged exactly when [code] is absent. *)
Theorem validate_fails_exactly_on_absent_code
    (st : ContentStore) (args : option (gmap string string)) :
  (∀ code type,
     validateCode st (Some code) type
     = Return (text_result (validation_report st (findings code type))))
  ∧ (∀ code,
       arg args "code" = Some code →
       call_tool st "validate_angular_code" args
       = {| content :=
              [ {| type := "text";
                   text := validation_report st
                             (findings code (arg args "type")) |} ];
            isError := None |})
  ∧ (arg args "code" = None →
       validateCode st (arg args "code") (arg args "type")
       = Throw (read_of_undefined "includes")
       ∧ call_tool st "validate_angular_code" args
         = {| content :=
                [ {| type := "text";
                     text := "Error: "
                             +:+ message (read_of_undefined "includes") |} ];
              isError := Some true |})
  ∧ (isError (call_tool st "validate_angular_code" args) = Some true
     ↔ arg args "code" = None).
Proof.
  assert (call_tool st "validate_angular_code" args
          = match validateCode st (arg args "code") (arg args "type") with
            | Return response => response
            | Throw error => error_result ("Error: " +:+ message error)
            end) as E by reflexivity.
  split; [reflexivity|]. split; [|split].
  - intros code H. rewrite E, H. reflexivity.
  - intros H. rewrite E, H. split; reflexivity.
  - rewrite E. destruct (arg args "code") as [code|]; simpl.
    + split; discriminate.
    + split; reflexivity.
Qed.

Lemma validate_fails_exactly_on_absent_code_witness :
  call_tool startup "validate_angular_code" (Some {[ "code" := "" ]})
  = text_result (validation_report startup [])
  ∧ call_tool startup "validate_angular_code" (Some {[ "type" := "service" ]})
    = error_result
        "Error: Cannot read properties of undefined (reading 'includes')".
Proof.
  split.
  - etransitivity.
    + apply (proj1 (proj2 (validate_fails_exactly_on_absent_code
                             startup (Some {[ "code" := "" ]}))) "").
      vm_compute. reflexivity.
    + vm_compute. reflexivity.
  - etransitivity.
    + apply (proj1 (proj2 (proj2 (validate_fails_exactly_on_absent_code
                                    startup (Some {[ "type" := "service" ]}))))).
      vm_compute. reflexivity.
    + vm_compute. reflexivity.
Defined.

(** On an absent [code] what is thrown is the engine's [TypeError], not an
    error of a class [InvalidArgument], and the text of the response is the
    engine's message. *)
Lemma validate_absent_code_throws_TypeError :
  validateCode startup None (Some "component")
  = Throw (TypeError
             "Cannot read properties of undefined (reading 'includes')")
  ∧ ¬ (∃ e, validateCode startup None (Some "component") = Throw e
            ∧ error_name e = "InvalidArgument")
  ∧ call_tool startup "validate_angular_code" (Some {[ "type" := "component" ]})
    = {| content :=
           [ {| type := "text";
                text := "Error: Cannot read properties of undefined (reading 'includes')" |} ];
         isError := Some true |}.
Proof.
  split; [reflexivity|]. split; [|vm_compute; reflexivity].
  intros (e & He & Hname). injection He as <-. discriminate Hname.
Qed.

(** The pushes after the first one append: they keep the head of [issues]. *)
Lemma push_keeps_head (first : string) (issues : list string) (b : bool)
    (issue : string) :
  (∃ rest, issues = first :: rest) →
  ∃ rest, (if b then issues ++ [issue] else issues) = first :: rest.
Proof.
  intros [rest ->]. destruct b; [exists (rest ++ [issue]) | exists rest];
    reflexivity.
Qed.

(** A push of a message that satisfies [P] keeps [P] on all of [issues]. *)
Lemma push_keeps_Forall (P : string → Prop) (issues : list string) (b : bool)
    (issue : string) :
  Forall P issues → P issue →
  Forall P (if b then issues ++ [issue] else issues).
Proof.
  intros H Hi. destruct b; [|exact H].
  apply Forall_app. split; [exact H | now constructor].
Qed.

(** C9. Whenever the three characters [any] occur somewhere in the code, in
    a longer word or not, and whatever the category, the first finding is the
    one about the [any] type; and when they occur nowhere, in this letter
    case, that finding is not produced.  The rule is a case-sensitive
    substring test on the whole text. *)
Theorem any_substring_is_first_finding
    (st : ContentStore) (code : string) (type : option string) :
  ((∃ pre post, code = pre +:+ "any" +:+ post) →
   ∃ rest,
     findings code type = Issue.any_type :: rest
     ∧ validateCode st (Some code) type
       = Return (text_result (validation_report st (Issue.any_type :: rest))))
  ∧ ((∀ pre post, code ≠ pre +:+ "any" +:+ post) →
     Issue.any_type ∉ findings code type).
Proof.
  split.
  - intros (pre & post & ->).
    assert (∃ rest, findings (pre +:+ "any" +:+ post) type
                    = Issue.any_type :: rest) as [rest E].
    { unfold findings. cbv zeta. rewrite includes_append.
      repeat first
        [ apply push_keeps_head
        | match goal with
          | |- ∃ rest, (if ?b then _ else _) = _ :: rest => destruct b
          end ].
      all: exists []; reflexivity. }
    exists rest. split; [exact E|]. unfold validateCode. rewrite E.
    reflexivity.
  - intros H.
    assert (includes code "any" = false) as E.
    { destruct (includes code "any") eqn:E; [|reflexivity].
      apply includes_inv in E as (pre & post & ->).
      now destruct (H pre post). }
    assert (Forall (λ issue, issue ≠ Issue.any_type) (findings code type))
      as HF.
    { unfold findings. cbv zeta. rewrite E.
      repeat first
        [ apply Forall_nil_2
        | apply push_keeps_Forall;
          [| intros D; vm_compute in D; discriminate D ]
        | match goal with
          | |- Forall _ (if ?b then _ else _) => destruct b
          end ]. }
    intros Hin. exact (proj1 (Forall_forall _ _) HF _ Hin eq_refl).
Qed.

Lemma any_substring_is_first_finding_witness :
  (∃ rest, findings "const company = load();" (Some "service")
           = Issue.any_type :: rest
     ∧ validateCode startup (Some "const company = load();") (Some "service")
       = Return (text_result
                   (validation_report startup (Issue.any_type :: rest))))
  ∧ Issue.any_type ∉ findings "let x: ANY = 1" None.
Proof.
  split.
  - apply (proj1 (any_substring_is_first_finding
                    startup "const company = load();" (Some "service"))).
    exists "const comp", " = load();". reflexivity.
  - apply (proj2 (any_substring_is_first_finding
                    startup "let x: ANY = 1" None)).
    intros pre post E.
    assert (includes "let x: ANY = 1" "any" = true) as D
      by (rewrite E; apply includes_append).
    vm_compute in D. discriminate D.
Defined.

(** ** The example catalog *)

(** C7. [get_code_example] with [type = "all"] answers with one text block:
    a title, the subheading [## Component Example], the component example,
    the subheading [## Service Example], the service example.  Each of the two
    example texts occurs in it exactly once, so the component example comes
    first. *)
Theorem code_example_all_contains_both_once :
  ∃ all_text,
    getCodeExample startup (Some "all")
    = Return {| content := [ {| type := "text"; text := all_text |} ];
                isError := None |}
    ∧ call_tool startup "get_code_example" (Some {[ "type" := "all" ]})
      = text_result all_text
    ∧ all_text
      = "# Angular Code Examples" +:+ nl +:+ nl +:+ "## Component Example"
        +:+ component_example +:+ nl +:+ nl +:+ "## Service Example"
        +:+ service_example
    ∧ occurrences all_text component_example = 1
    ∧ occurrences all_text service_example = 1.
Proof.
  eexists. split; [reflexivity|].
  split; [vm_compute; reflexivity|].
  split; [reflexivity|].
  split; vm_compute; reflexivity.
Qed.

(** C10. When the [type] argument of [get_code_example] is absent, the
    handler does not report a missing argument: [undefined] is not ["all"], the
    catalog has no property [undefined], and the caller gets the error-flagged
    response [Error: No example available for type: undefined], the same
    response as for the unknown key ["undefined"], and of the same shape as
    for any key other than ["all"] that the catalog lookup does not find. *)
Theorem code_example_absent_type_as_unknown_key
    (args : option (gmap string string)) :
  arg args "type" = None →
  call_tool startup "get_code_example" args
  = {| content :=
         [ {| type := "text";
              text := "Error: No example available for type: undefined" |} ];
       isError := Some true |}
  ∧ call_tool startup "get_code_example" args
    = call_tool startup "get_code_example" (Some {[ "type" := "undefined" ]})
  ∧ ∀ key other,
      arg other "type" = Some key →
      key ≠ "all" →
      get CODE_EXAMPLES key = Undefined →
      call_tool startup "get_code_example" other
      = {| content :=
             [ {| type := "text";
                  text := "Error: No example available for type: " +:+ key |} ];
           isError := Some true |}.
Proof.
  intros H.
  assert (∀ a, call_tool startup "get_code_example" a
               = match getCodeExample startup (arg a "type") with
                 | Return response => response
                 | Throw error => error_result ("Error: " +:+ message error)
                 end) as E by reflexivity.
  split; [|split].
  - rewrite E, H. vm_compute. reflexivity.
  - rewrite E, H. vm_compute. reflexivity.
  - intros key other Hk Hall Hget. rewrite E, Hk. unfold getCodeExample.
    rewrite bool_decide_eq_false_2 by congruence.
    simpl. rewrite Hget. reflexivity.
Qed.

Lemma code_example_absent_type_as_unknown_key_witness :
  call_tool startup "get_code_example" (Some ∅)
  = error_result "Error: No example available for type: undefined".
Proof.
  refine (proj1 (code_example_absent_type_as_unknown_key (Some ∅) _)).
  reflexivity.
Defined.

(** ** Guideline sections *)

(** A recognised section name reaches the extraction with its heading
    phrase. *)
Lemma getAngularGuidelines_recognized (st : ContentStore) (section title : string) :
  (section, title) ∈ sectionMap →
  getAngularGuidelines st (Some section)
  = text_result (extractSection (guidelines st) title).
Proof.
  revert section title.
  assert (Forall (λ p, getAngularGuidelines st (Some p.1)
                       = text_result (extractSection (guidelines st) p.2))
            sectionMap) as H
    by (repeat constructor).
  intros section title Hin.
  exact (proj1 (Forall_forall _ _) H (section, title) Hin).
Qed.

(** No member of [Object.prototype] converts to a string that occurs in a
    line of the guideline document. *)
Lemma inherited_title_not_in_guidelines (key : string) (b : Builtin) :
  (key, b) ∈ Object_prototype →
  extractSection ANGULAR_GUIDELINES (Builtin_toString b) = ANGULAR_GUIDELINES.
Proof.
  assert (Forall (λ p, extractSection ANGULAR_GUIDELINES (Builtin_toString p.2)
                       = ANGULAR_GUIDELINES) Object_prototype) as H
    by (repeat constructor; vm_compute; reflexivity).
  intros Hin. exact (proj1 (Forall_forall _ _) H (key, b) Hin).
Qed.

Lemma getAngularGuidelines_unrecognized (section : option string) :
  (∀ s, section = Some s → s ∉ sectionMap.*1) →
  getAngularGuidelines startup section = text_result ANGULAR_GUIDELINES.
Proof.
  intros H. destruct section as [s|]; [|reflexivity].
  specialize (H s eq_refl). unfold getAngularGuidelines.
  destruct (truthy (Some s) && negb (bool_decide (Some s = Some "all")));
    [|reflexivity].
  simpl template. unfold get.
  destruct (assoc s sectionMap) as [t|] eqn:E1.
  { apply assoc_Some in E1. exfalso. apply H.
    apply (list_elem_of_fmap_2 fst sectionMap (s, t)), E1. }
  destruct (assoc s Object_prototype) as [b|] eqn:E2; [|reflexivity].
  apply assoc_Some in E2. simpl.
  now rewrite (inherited_title_not_in_guidelines s b).
Qed.

(** C2. For each of the six section names the tool answers with one text
    block, not flagged as an error, whose text is not empty, occurs in the
    guideline document at the beginning of a line, and begins with the
    heading line [## <phrase>] of that section.  When the [section] argument
    is absent, is ["all"], or is any other string than the six names, the
    text is the whole guideline document, again not flagged as an error. *)
Theorem guidelines_section_or_whole_document
    (args : option (gmap string string)) :
  (∀ section title,
     (section, title) ∈ sectionMap →
     arg args "section" = Some section →
     ∃ body,
       call_tool startup "get_angular_guidelines" args
       = {| content := [ {| type := "text"; text := body |} ];
            isError := None |}
       ∧ body ≠ ""
       ∧ (∃ pre post, ANGULAR_GUIDELINES = pre +:+ nl +:+ body +:+ post)
       ∧ (∃ rest, body = "## " +:+ title +:+ nl +:+ rest))
  ∧ ((∀ s, arg args "section" = Some s → s ∉ sectionMap.*1) →
     call_tool startup "get_angular_guidelines" args
     = {| content := [ {| type := "text"; text := ANGULAR_GUIDELINES |} ];
          isError := None |}).
Proof.
  assert (call_tool startup "get_angular_guidelines" args
          = getAngularGuidelines startup (arg args "section")) as E
    by reflexivity.
  split.
  - intros section title Hin Harg. rewrite E, Harg. clear E Harg args.
    revert section title Hin.
    assert (Forall (λ p,
              ∃ body,
                getAngularGuidelines startup (Some p.1) = text_result body
                ∧ body ≠ ""
                ∧ includes ANGULAR_GUIDELINES (nl +:+ body) = true
                ∧ startsWith body ("## " +:+ p.2 +:+ nl) = true)
              sectionMap) as H.
    { repeat constructor; simpl; eexists;
        (split; [vm_compute; reflexivity|]);
        (split; [discriminate|]);
        split; vm_compute; reflexivity. }
    intros section title Hin.
    destruct (proj1 (Forall_forall _ _) H (section, title) Hin)
      as (body & Hbody & Hne & Hinc & Hstart).
    exists body. split; [exact Hbody|]. split; [exact Hne|]. split.
    + apply includes_inv in Hinc as (pre & post & ->).
      exists pre, post. now rewrite append_assoc.
    + apply startsWith_inv in Hstart as (rest & ->).
      exists rest. simpl. now rewrite !append_assoc.
  - intros H. rewrite E. now apply getAngularGuidelines_unrecognized.
Qed.

Lemma guidelines_section_or_whole_document_witness :
  (∃ body,
     call_tool startup "get_angular_guidelines"
       (Some {[ "section" := "state" ]})
     = text_result body
     ∧ body ≠ ""
     ∧ (∃ pre post, ANGULAR_GUIDELINES = pre +:+ nl +:+ body +:+ post)
     ∧ (∃ rest, body = "## " +:+ "State Management" +:+ nl +:+ rest))
  ∧ call_tool startup "get_angular_guidelines"
      (Some {[ "section" := "toString" ]})
    = text_result ANGULAR_GUIDELINES
  ∧ call_tool startup "get_angular_guidelines" None
    = text_result ANGULAR_GUIDELINES.
Proof.
  split; [|split].
  - apply (proj1 (guidelines_section_or_whole_document
                    (Some {[ "section" := "state" ]}))
             "state" "State Management").
    + unfold sectionMap. do 3 right. left.
    + vm_compute. reflexivity.
  - apply (proj2 (guidelines_section_or_whole_document
                    (Some {[ "section" := "toString" ]}))).
    intros s Hs. vm_compute in Hs. injection Hs as <-.
    unfold sectionMap. simpl. rewrite !not_elem_of_cons.
    repeat split; try discriminate. apply not_elem_of_nil.
  - apply (proj2 (guidelines_section_or_whole_document None)).
    intros s Hs. discriminate Hs.
Defined.

(** C5. For a recognised section name with heading phrase [title], and any
    guideline document: if [h] is the first line that contains [title], the
    answer starts at [h]; it stops just before the first later line [b] that
    starts with [## ] and does not contain [title], and runs to the last line
    when there is no such line; and if no line contains [title] the answer is
    the document itself. *)
Theorem section_extraction_bounds
    (st : ContentStore) (section title : string) :
  (section, title) ∈ sectionMap →
  (∀ before h rest,
     split LF (guidelines st) = before ++ h :: rest →
     Forall (λ line, includes line title = false) before →
     includes h title = true →
     (∀ body b after,
        rest = body ++ b :: after →
        Forall (λ line, boundary title line = false) body →
        boundary title b = true →
        getAngularGuidelines st (Some section)
        = text_result (join nl (h :: body)))
     ∧ (Forall (λ line, boundary title line = false) rest →
        getAngularGuidelines st (Some section)
        = text_result (join nl (h :: rest))))
  ∧ (Forall (λ line, includes line title = false) (split LF (guidelines st)) →
     getAngularGuidelines st (Some section) = text_result (guidelines st)).
Proof.
  intros Hin. rewrite (getAngularGuidelines_recognized st section title Hin).
  split.
  - intros before h rest E Hbefore Hh. split.
    + intros body b after -> Hbody Hb. f_equal.
      now apply (extractSection_bounded _ _ before body after h b).
    + intros Hrest. f_equal.
      now apply (extractSection_to_end _ _ before rest h).
  - intros H. f_equal. now apply extractSection_absent.
Qed.

Lemma section_extraction_bounds_witness :
  getAngularGuidelines sample_store (Some "state")
  = text_result (join nl [ "## State Management"; "- signals" ])
  ∧ getAngularGuidelines sample_store (Some "templates")
    = text_result (join nl [ "## Templates"; "- simple" ])
  ∧ getAngularGuidelines sample_store (Some "services")
    = text_result (guidelines sample_store).
Proof.
  split; [|split].
  - refine (proj1 (proj1 (section_extraction_bounds sample_store
                            "state" "State Management" _)
                     [ "# Guide" ] "## State Management"
                     [ "- signals"; "## Templates"; "- simple" ] _ _ _)
              [ "- signals" ] "## Templates" [ "- simple" ] _ _ _).
    + unfold sectionMap. do 3 right. left.
    + vm_compute. reflexivity.
    + repeat constructor.
    + vm_compute. reflexivity.
    + reflexivity.
    + repeat constructor.
    + vm_compute. reflexivity.
  - refine (proj2 (proj1 (section_extraction_bounds sample_store
                            "templates" "Templates" _)
                     [ "# Guide"; "## State Management"; "- signals" ]
                     "## Templates" [ "- simple" ] _ _ _) _).
    + unfold sectionMap. do 4 right. left.
    + vm_compute. reflexivity.
    + repeat constructor.
    + vm_compute. reflexivity.
    + repeat constructor.
  - refine (proj2 (section_extraction_bounds sample_store
                     "services" "Services" _) _).
    + unfold sectionMap. do 5 right. left.
    + vm_compute. repeat constructor.
Defined.

(** ** Sessions on the machine *)

Lemma bind_run {A B} (c : Run A) (k : A → Run B) (m m' : Machine) (a : A) :
  c m = (Return a, m') → (c ≫= k) m = k a m'.
Proof. intros H. unfold mbind, Run_bind. now rewrite H. Qed.

(** A conditional push onto the array allocated last touches that array
    only. *)
Lemma when_push_last (b : bool) (item : string) (content : ContentStore)
    (old : list (list string)) (items : list string) :
  when b (push (length old) item)
    {| module_content := content; arrays := old ++ [items] |}
  = (Return tt,
     {| module_content := content;
        arrays := old ++ [if b then items ++ [item] else items] |}).
Proof.
  destruct b; [|reflexivity]. unfold when, push. simpl.
  rewrite <- (Nat.add_0_r (length old)) at 1.
  rewrite alter_app_r. reflexivity.
Qed.

Lemma when_two_pushes_last (b c1 c2 : bool) (item1 item2 : string)
    (content : ContentStore) (old : list (list string)) (items : list string) :
  when b (when c1 (push (length old) item1);;
          when c2 (push (length old) item2))
    {| module_content := content; arrays := old ++ [items] |}
  = (Return tt,
     {| module_content := content;
        arrays :=
          old ++ [ if b then
                     if c2 then (if c1 then items ++ [item1] else items)
                                ++ [item2]
                     else if c1 then items ++ [item1] else items
                   else items ] |}).
Proof.
  destruct b; [|reflexivity]. unfold when at 1.
  erewrite bind_run by apply when_push_last. apply when_push_last.
Qed.

(** Running [validateCode] on the machine returns what the pure embedding
    returns and allocates one array, the findings; nothing else changes. *)
Lemma validateCode_run_spec (m : Machine) (code type : option string) :
  validateCode_run code type m
  = (validateCode (module_content m) code type,
     grown m [ match code with
               | Some text => findings text type
               | None => []
               end ]).
Proof.
  destruct m as [content old]. unfold validateCode_run, grown.
  cbn [module_content arrays].
  erewrite bind_run by reflexivity. cbn [module_content arrays].
  destruct code as [code|]; [|reflexivity].
  do 7 (erewrite bind_run
          by first [apply when_push_last | apply when_two_pushes_last]).
  unfold mbind, Run_bind, read_array, read_content, mret, Run_ret.
  cbn [module_content arrays].
  rewrite (list_lookup_middle old [] _ (length old) eq_refl).
  reflexivity.
Qed.

Lemma lift_run {A} (c : Completion A) (m : Machine) : lift c m = (c, m).
Proof. destruct c; reflexivity. Qed.

(** Running the tool dispatcher on the machine returns the response of the
    pure embedding, and the machine it leaves differs from the one it found
    only by arrays allocated during the call. *)
Lemma call_tool_run_spec (m : Machine) (name : string)
    (args : option (gmap string string)) :
  ∃ fresh,
    call_tool_run name args m
    = (Return (call_tool (module_content m) name args), grown m fresh).
Proof.
  assert (m = grown m []) as Hm.
  { destruct m. unfold grown. simpl. now rewrite app_nil_r. }
  unfold call_tool_run, call_tool, try_catch.
  destruct (bool_decide (name = "get_angular_guidelines")).
  { exists []. rewrite <- Hm. reflexivity. }
  destruct (bool_decide (name = "get_code_example")).
  { exists []. rewrite <- Hm. unfold getCodeExample_run.
    erewrite bind_run by reflexivity. rewrite lift_run.
    destruct (getCodeExample (module_content m) (arg args "type"));
      reflexivity. }
  destruct (bool_decide (name = "validate_angular_code")).
  { eexists. rewrite validateCode_run_spec.
    destruct (validateCode (module_content m) (arg args "code")
                (arg args "type")); reflexivity. }
  exists []. rewrite <- Hm. reflexivity.
Qed.

Lemma step_spec (m : Machine) (req : Request) :
  ∃ fresh, step m req = (respond (module_content m) req, grown m fresh).
Proof.
  destruct req as [name args|name args]; simpl.
  - destruct (call_tool_run_spec m name args) as [fresh ->]. now exists fresh.
  - exists []. unfold get_prompt_run.
    erewrite bind_run by reflexivity. rewrite lift_run.
    replace (grown m []) with m
      by (destruct m; unfold grown; simpl; now rewrite app_nil_r).
    destruct (get_prompt (module_content m) name args); reflexivity.
Qed.

Lemma serve_respond (m : Machine) (reqs : list Request) :
  serve m reqs = respond (module_content m) <$> reqs.
Proof.
  revert m. induction reqs as [|req reqs IH]; intros m; [reflexivity|].
  simpl. destruct (step_spec m req) as [fresh ->].
  now rewrite IH.
Qed.

(** C8. The response to a request is the one the pure embedding computes
    from the content of the module, the name and the arguments.  Serving a
    request changes neither the content of the module nor any array that
    existed before it: the machine only grows by the arrays the call
    allocated.  The response does not depend on the arrays earlier calls left
    behind; so the response to a request is the same after any
    history of earlier requests, and two occurrences of the same request in a
    session get the same response. *)
Theorem handlers_deterministic_and_stateless (m : Machine) :
  (∀ req,
     (step m req).1 = respond (module_content m) req
     ∧ module_content (step m req).2 = module_content m
     ∧ arrays m `prefix_of` arrays (step m req).2)
  ∧ (∀ m' req,
       module_content m' = module_content m →
       (step m' req).1 = (step m req).1)
  ∧ (∀ history1 history2 req,
       last (serve m (history1 ++ [req]))
       = last (serve m (history2 ++ [req])))
  ∧ (∀ reqs i j req,
       reqs !! i = Some req → reqs !! j = Some req →
       serve m reqs !! i = serve m reqs !! j).
Proof.
  split; [|split; [|split]].
  - intros req. destruct (step_spec m req) as [fresh ->]. simpl.
    split; [reflexivity|]. split; [reflexivity | now exists fresh].
  - intros m' req H.
    destruct (step_spec m req) as [fresh ->].
    destruct (step_spec m' req) as [fresh' ->]. simpl. now rewrite H.
  - intros history1 history2 req.
    now rewrite !serve_respond, !fmap_snoc, !last_snoc.
  - intros reqs i j req Hi Hj.
    now rewrite serve_respond, !list_lookup_fmap, Hi, Hj.
Qed.

Lemma handlers_deterministic_and_stateless_witness :
  let session :=
    [ CallTool "validate_angular_code" (Some {[ "code" := "let x: any;" ]});
      CallTool "get_code_example" (Some {[ "type" := "service" ]});
      GetPrompt "angular_code_review" (Some {[ "code" := "x" ]});
      CallTool "validate_angular_code" (Some {[ "code" := "let x: any;" ]}) ] in
  serve used_machine session !! 0 = serve used_machine session !! 3
  ∧ (step {| module_content := startup; arrays := [] |}
       (CallTool "validate_angular_code" (Some {[ "code" := "let x: any;" ]}))).1
    = (step used_machine
         (CallTool "validate_angular_code"
            (Some {[ "code" := "let x: any;" ]}))).1.
Proof.
  intros session. split.
  - refine (proj2 (proj2 (proj2
              (handlers_deterministic_and_stateless used_machine)))
              session 0 3
              (CallTool "validate_angular_code"
                 (Some {[ "code" := "let x: any;" ]})) _ _); reflexivity.
  - refine (proj1 (proj2 (handlers_deterministic_and_stateless used_machine))
              {| module_content := startup; arrays := [] |} _ _).
    reflexivity.
Defined.

(** ** Lines of a document *)

Section LineFacts.

Lemma split_nonempty (sep : ascii) (s : string) : split sep s ≠ [].
Proof.
  destruct s as [|c s]; simpl; [discriminate|].
  destruct (Ascii.eqb c sep); [discriminate|].
  destruct (split sep s); discriminate.
Qed.

Lemma join_cons (sep x : string) (l : list string) :
  l ≠ [] → join sep (x :: l) = x +:+ sep +:+ join sep l.
Proof. destruct l; [congruence | reflexivity]. Qed.

(** Splitting at line feeds and joining with line feeds gives the text
    back. *)
Lemma join_split (s : string) : join nl (split LF s) = s.
Proof.
  induction s as [|c s IH]; [reflexivity|]. simpl.
  destruct (Ascii.eqb_spec c LF) as [->|_].
  - rewrite join_cons by apply split_nonempty. now rewrite IH.
  - destruct (split LF s) as [|l ls] eqn:E; [now destruct (split_nonempty LF s)|].
    rewrite <- IH. destruct ls as [|l' ls]; reflexivity.
Qed.

Lemma join_app (sep : string) (a b : list string) :
  a ≠ [] → b ≠ [] →
  join sep (a ++ b) = join sep a +:+ sep +:+ join sep b.
Proof.
  intros Ha Hb. induction a as [|x a IH]; [congruence|].
  destruct a as [|y a].
  - simpl app. now rewrite join_cons.
  - change ((x :: y :: a) ++ b) with (x :: ((y :: a) ++ b)).
    rewrite !join_cons by discriminate.
    rewrite IH by discriminate. now rewrite !append_assoc.
Qed.

(** The join of a run of consecutive lines occurs in the join of all. *)
Lemma join_middle (sep : string) (a m b : list string) :
  ∃ pre post, join sep (a ++ m ++ b) = pre +:+ join sep m +:+ post.
Proof.
  destruct m as [|x m].
  - exists "", (join sep (a ++ b)). reflexivity.
  - destruct a as [|y a], b as [|z b].
    + exists "", "". now rewrite app_nil_r, append_nil_r.
    + exists "", (sep +:+ join sep (z :: b)).
      rewrite app_nil_l. now rewrite join_app by discriminate.
    + exists (join sep (y :: a) +:+ sep), "".
      rewrite app_nil_r, join_app by discriminate.
      now rewrite append_nil_r, append_assoc.
    + exists (join sep (y :: a) +:+ sep), (sep +:+ join sep (z :: b)).
      rewrite join_app by discriminate.
      rewrite (join_app sep (x :: m)) by discriminate.
      now rewrite !append_assoc.
Qed.

(** Either no element passes the test, or there is a first one that does. *)
Lemma first_split {A} (q : A → bool) (l : list A) :
  Forall (λ x, q x = false) l
  ∨ ∃ before x rest,
      l = before ++ x :: rest ∧ Forall (λ y, q y = false) before ∧ q x = true.
Proof.
  induction l as [|y l IH]; [left; constructor|].
  destruct (q y) eqn:E.
  - right. exists [], y, l. repeat split; [constructor | exact E].
  - destruct IH as [H|(before & x & rest & -> & Hb & Hx)].
    + left. now constructor.
    + right. exists (y :: before), x, rest.
      repeat split; [now constructor | exact Hx].
Qed.

End LineFacts.

(** ** Section extraction is total and stays inside the document *)

(** The three cases of [extractSection] cover every document and phrase:
    the phrase is in no line and the document comes back; or the lines split
    into the lines before the first one [h] that has the phrase, the lines
    [body] up to the next boundary, and a [tail] that is empty or begins with
    that boundary, and the answer is [h] and [body]. *)
Lemma extractSection_cases (content title : string) :
  (Forall (λ line, includes line title = false) (split LF content)
   ∧ extractSection content title = content)
  ∨ ∃ before h body tail,
      split LF content = before ++ h :: body ++ tail
      ∧ Forall (λ line, includes line title = false) before
      ∧ includes h title = true
      ∧ Forall (λ line, boundary title line = false) body
      ∧ (tail = [] ∨ ∃ b after, tail = b :: after ∧ boundary title b = true)
      ∧ extractSection content title = join nl (h :: body).
Proof.
  destruct (first_split (λ line, includes line title) (split LF content))
    as [H|(before & h & rest & E & Hb & Hh)].
  - left. split; [exact H | now apply extractSection_absent].
  - right.
    destruct (first_split (boundary title) rest)
      as [Hr|(body & b & after & -> & Hbody & Hbd)].
    + exists before, h, rest, []. rewrite app_nil_r.
      repeat split; try assumption; [now left|].
      now apply (extractSection_to_end _ _ before rest h).
    + exists before, h, body, (b :: after).
      repeat split; try assumption; [right; now exists b, after|].
      now apply (extractSection_bounded _ _ before body after h b).
Qed.

(** The extracted text occurs in the document, and it is empty only when
    the document is empty or the phrase is. *)
Lemma extractSection_within_document (content title : string) :
  (∃ pre post, content = pre +:+ extractSection content title +:+ post)
  ∧ (content ≠ "" → title ≠ "" → extractSection content title ≠ "").
Proof.
  destruct (extractSection_cases content title)
    as [[_ ->]|(before & h & body & tail & E & _ & Hh & _ & _ & ->)].
  - split; [|tauto]. exists "", "". now rewrite append_nil_r.
  - split.
    + assert (content = join nl (before ++ (h :: body) ++ tail)) as Hc.
      { transitivity (join nl (split LF content));
          [symmetry; apply join_split | now rewrite E]. }
      destruct (join_middle nl before (h :: body) tail) as (pre & post & Hm).
      exists pre, post. congruence.
    + intros _ Ht Hj.
      assert (h = "") as ->.
      { destruct body as [|x body]; [exact Hj|].
        rewrite join_cons in Hj by discriminate.
        destruct h; [reflexivity | discriminate Hj]. }
      destruct title; [congruence | discriminate Hh].
Qed.

(** Whatever the guideline document and the [section] argument, recognised
    or not, the text [getAngularGuidelines] answers with occurs in the
    document, and it is not empty unless the document is. *)
Theorem guidelines_answer_within_document
    (st : ContentStore) (section : option string) :
  ∃ body,
    getAngularGuidelines st section = text_result body
    ∧ (∃ pre post, guidelines st = pre +:+ body +:+ post)
    ∧ (guidelines st ≠ "" → body ≠ "").
Proof.
  unfold getAngularGuidelines.
  destruct (truthy section && negb (bool_decide (section = Some "all"))).
  2:{ eexists. split; [reflexivity|]. split; [|tauto].
      exists "", "". now rewrite append_nil_r. }
  destruct (Property_truthy (get sectionMap (template section))) eqn:T.
  2:{ eexists. split; [reflexivity|]. split; [|tauto].
      exists "", "". now rewrite append_nil_r. }
  eexists. split; [reflexivity|].
  destruct (extractSection_within_document (guidelines st)
              (Property_toString (get sectionMap (template section))))
    as [Hsub Hne].
  split; [exact Hsub|]. intros Hdoc. apply Hne; [exact Hdoc|].
  destruct (get sectionMap (template section)) as [t|b|]; simpl in *.
  - destruct t; [discriminate T | discriminate].
  - destruct b; discriminate.
  - discriminate T.
Qed.

(** ** The rules as a table *)

(** The sequence of conditional pushes of [validateCode] computes the same
    list as reading the rule table top to bottom. *)
Lemma findings_fired (code : string) (type : option string) :
  findings code type = fired rule_table code type.
Proof.
  unfold findings, rule_table, fired. cbv zeta.
  destruct (includes code "any");
  destruct (includes code "*ngIf" || includes code "*ngFor"
            || includes code "*ngSwitch");
  destruct (includes code "ngClass");
  destruct (includes code "ngStyle");
  destruct (includes code "@Input()" || includes code "@Output()");
  destruct (bool_decide (type = Some "component"));
  destruct (negb (includes code "ChangeDetectionStrategy.OnPush"));
  destruct (negb (includes code "signal(") && negb (includes code "computed("));
  destruct (bool_decide (type = Some "service"));
  destruct (negb (includes code "inject("));
  destruct (negb (includes code "providedIn: 'root'"));
  reflexivity.
Qed.

Lemma rule_messages_distinct : NoDup rule_table.*2.
Proof. apply (bool_decide_unpack _). vm_compute. exact I. Qed.

Lemma fired_sublist (table : list ((string → option string → bool) * string))
    (code : string) (type : option string) :
  fired table code type `sublist_of` table.*2.
Proof.
  induction table as [|[condition issue] table IH]; simpl; [constructor|].
  destruct (condition code type); [now apply sublist_skip | now apply sublist_cons].
Qed.

Lemma elem_of_fired (table : list ((string → option string → bool) * string))
    (code : string) (type : option string) (issue : string) :
  issue ∈ fired table code type
  ↔ ∃ condition, (condition, issue) ∈ table ∧ condition code type = true.
Proof.
  induction table as [|[c m] table IH]; simpl.
  - split; [intros H; inversion H | intros (? & H & _); inversion H].
  - destruct (c code type) eqn:E.
    + rewrite elem_of_cons, IH. split.
      * intros [->|(c' & Hin & Hc)].
        -- exists c. split; [left | exact E].
        -- exists c'. split; [now right | exact Hc].
      * intros (c' & Hin & Hc). apply elem_of_cons in Hin as [[= -> ->]|Hin].
        -- now left.
        -- right. now exists c'.
    + rewrite IH. split.
      * intros (c' & Hin & Hc). exists c'. split; [now right | exact Hc].
      * intros (c' & Hin & Hc). apply elem_of_cons in Hin as [[= -> ->]|Hin].
        -- congruence.
        -- now exists c'.
Qed.

Lemma unique_condition {C : Type} (table : list (C * string))
    (c c' : C) (m : string) :
  NoDup table.*2 → (c, m) ∈ table → (c', m) ∈ table → c = c'.
Proof.
  induction table as [|[c0 m0] table IH]; simpl; intros Hnd H1 H2.
  - inversion H1.
  - apply NoDup_cons in Hnd as [Hnot Hnd].
    apply elem_of_cons in H1 as [H1|H1], H2 as [H2|H2].
    + congruence.
    + injection H1 as -> ->. destruct Hnot.
      apply (list_elem_of_fmap_2 snd table (c', m0)), H2.
    + injection H2 as -> ->. destruct Hnot.
      apply (list_elem_of_fmap_2 snd table (c, m0)), H1.
    + now apply IH.
Qed.

Lemma finding_iff_condition (code : string) (type : option string)
    (condition : string → option string → bool) (issue : string) :
  (condition, issue) ∈ rule_table →
  (issue ∈ findings code type ↔ condition code type = true).
Proof.
  intros Hin. rewrite findings_fired, elem_of_fired. split.
  - intros (c' & Hin' & Hc).
    now rewrite (unique_condition _ _ _ _ rule_messages_distinct Hin Hin').
  - intros Hc. now exists condition.
Qed.

(** The findings of [validateCode] are the messages of the rules whose
    condition holds, in the order of the rules and each at most once; a
    rule's message is among the findings exactly when its own condition
    holds, whatever the other rules find. *)
Theorem findings_are_the_rules_that_hold (code : string) (type : option string) :
  findings code type `sublist_of` rule_table.*2
  ∧ NoDup (findings code type)
  ∧ ∀ condition issue,
      (condition, issue) ∈ rule_table →
      (issue ∈ findings code type ↔ condition code type = true).
Proof.
  rewrite findings_fired.
  pose proof (fired_sublist rule_table code type) as Hsub.
  split; [exact Hsub|]. split.
  - exact (sublist_NoDup _ _ rule_messages_distinct Hsub).
  - intros condition issue Hin. rewrite <- findings_fired.
    now apply finding_iff_condition.
Qed.

Lemma findings_are_the_rules_that_hold_witness :
  Issue.ngStyle ∈ findings "<p [ngStyle]=s></p>" (Some "service").
Proof.
  refine (proj2 (proj2 (proj2 (findings_are_the_rules_that_hold
                                 "<p [ngStyle]=s></p>" (Some "service")))
                   (λ code _, includes code "ngStyle") Issue.ngStyle _) _).
  - unfold rule_table. do 3 right. left.
  - reflexivity.
Defined.

(** The category [type] matters only when it is ["component"] or
    ["service"]: any other category, ["general"] included, gives the findings
    of a call without category, at most five of them; and since the two
    categories exclude each other there are never more than seven findings. *)
Theorem category_rules_only_for_component_and_service
    (code : string) (type : option string) :
  (type ≠ Some "component" → type ≠ Some "service" →
   findings code type = findings code None
   ∧ length (findings code type) ≤ 5)
  ∧ length (findings code type) ≤ 7.
Proof.
  rewrite !findings_fired. unfold rule_table, fired. split.
  - intros Hc Hs.
    rewrite !(bool_decide_eq_false_2 _ Hc), !(bool_decide_eq_false_2 _ Hs).
    rewrite !(bool_decide_eq_false_2 (None = Some "component")) by discriminate.
    rewrite !(bool_decide_eq_false_2 (None = Some "service")) by discriminate.
    cbn [andb]. split; [reflexivity|].
    repeat match goal with
           | |- context [if ?b then _ else _] => destruct b
           end; simpl; lia.
  - destruct (decide (type = Some "component")) as [->|Hc].
    + rewrite !(bool_decide_eq_false_2 (Some "component" = Some "service"))
        by discriminate.
      cbn [andb].
      repeat match goal with
             | |- context [if ?b then _ else _] => destruct b
             end; simpl; lia.
    + rewrite !(bool_decide_eq_false_2 _ Hc). cbn [andb].
      repeat match goal with
             | |- context [if ?b then _ else _] => destruct b
             end; simpl; lia.
Qed.

Lemma category_rules_only_for_component_and_service_witness :
  findings "@Input() x: any;" (Some "general") = findings "@Input() x: any;" None.
Proof.
  refine (proj1 (proj1 (category_rules_only_for_component_and_service
                          "@Input() x: any;" (Some "general")) _ _));
    discriminate.
Defined.

(** ** What the dispatcher reads and what it answers *)

(** Each tool reads only its own arguments: [section] for the guidelines,
    [type] for the examples, [code] and [type] for the validation.  Two
    requests that agree on them get the same response; so other properties
    of [arguments] are ignored, and a request without [arguments] is served as
    one with an empty object. *)
Theorem call_tool_reads_only_its_arguments
    (st : ContentStore) (args args' : option (gmap string string)) :
  (arg args "section" = arg args' "section" →
   call_tool st "get_angular_guidelines" args
   = call_tool st "get_angular_guidelines" args')
  ∧ (arg args "type" = arg args' "type" →
     call_tool st "get_code_example" args
     = call_tool st "get_code_example" args'
     ∧ (arg args "code" = arg args' "code" →
        call_tool st "validate_angular_code" args
        = call_tool st "validate_angular_code" args'))
  ∧ (∀ name, call_tool st name None = call_tool st name (Some ∅)).
Proof.
  split; [|split].
  - intros H. unfold call_tool. simpl. now rewrite H.
  - intros H. split.
    + unfold call_tool. simpl. now rewrite H.
    + intros H'. unfold call_tool. simpl. now rewrite H, H'.
  - intros name. reflexivity.
Qed.

Lemma call_tool_reads_only_its_arguments_witness :
  call_tool startup "get_code_example"
    (Some {[ "type" := "service"; "verbose" := "yes" ]})
  = call_tool startup "get_code_example" (Some {[ "type" := "service" ]}).
Proof.
  refine (proj1 (proj1 (proj2 (call_tool_reads_only_its_arguments startup
                   (Some {[ "type" := "service"; "verbose" := "yes" ]})
                   (Some {[ "type" := "service" ]}))) _)).
  vm_compute. reflexivity.
Defined.

(** Every response of [call_tool] carries exactly one block, of type
    [text]: either it has no [isError], or it has [isError] true and its text
    is [Error: ] followed by the message of the error that was thrown, which
    is the unknown-tool error of the [default] case or the error thrown by
    [getCodeExample] or by [validateCode]. *)
Theorem call_tool_response_shape
    (st : ContentStore) (name : string) (args : option (gmap string string)) :
  (∃ body,
     call_tool st name args
     = {| content := [ {| type := "text"; text := body |} ];
          isError := None |})
  ∨ (∃ error,
       (((name ∉ tool_names) ∧ error = Error ("Unknown tool: " +:+ name))
        ∨ (name = "get_code_example"
           ∧ getCodeExample st (arg args "type") = Throw error)
        ∨ (name = "validate_angular_code"
           ∧ validateCode st (arg args "code") (arg args "type")
             = Throw error))
       ∧ call_tool st name args
         = {| content :=
                [ {| type := "text"; text := "Error: " +:+ message error |} ];
              isError := Some true |}).
Proof.
  unfold call_tool.
  destruct (decide (name = "get_angular_guidelines")) as [->|N1].
  { left. unfold getAngularGuidelines. eexists. reflexivity. }
  rewrite (bool_decide_eq_false_2 _ N1).
  destruct (decide (name = "get_code_example")) as [->|N2].
  { rewrite bool_decide_eq_true_2 by reflexivity.
    destruct (getCodeExample st (arg args "type")) as [r|e] eqn:E.
    - left. revert E. unfold getCodeExample.
      destruct (bool_decide _); [intros [= <-]; eexists; reflexivity|].
      destruct (negb _); [discriminate|].
      destruct (arg args "type"); [|discriminate].
      intros [= <-]. eexists. reflexivity.
    - right. exists e. split; [right; left; now split | reflexivity]. }
  rewrite (bool_decide_eq_false_2 _ N2).
  destruct (decide (name = "validate_angular_code")) as [->|N3].
  { rewrite bool_decide_eq_true_2 by reflexivity.
    destruct (validateCode st (arg args "code") (arg args "type"))
      as [r|e] eqn:E.
    - left. revert E. unfold validateCode.
      destruct (arg args "code"); [|discriminate].
      intros [= <-]. eexists. reflexivity.
    - right. exists e. split; [right; right; now split | reflexivity]. }
  rewrite (bool_decide_eq_false_2 _ N3).
  right. exists (Error ("Unknown tool: " +:+ name)).
  split; [|reflexivity]. left. split; [|reflexivity].
  unfold tool_names. rewrite !not_elem_of_cons.
  repeat split; try assumption. apply not_elem_of_nil.
Qed.

(** With the content of the module, [getCodeExample] throws exactly when the
    key it looks up, [undefined] for an absent [type], is not ["all"], not a
    key of the catalog and not a member of [Object.prototype]. *)
Lemma getCodeExample_throws_iff (type : option string) :
  (∃ e, getCodeExample startup type = Throw e)
  ↔ template type ∉ answered_example_keys.
Proof.
  unfold answered_example_keys.
  rewrite not_elem_of_cons, not_elem_of_app.
  unfold getCodeExample.
  destruct (bool_decide (type = Some "all")) eqn:D.
  { apply bool_decide_eq_true in D as ->. simpl.
    split; [intros [e [=]] | intros [H _]; congruence]. }
  apply bool_decide_eq_false in D.
  change (examples startup) with CODE_EXAMPLES. unfold get.
  destruct (assoc (template type) CODE_EXAMPLES) as [v|] eqn:E1.
  { assert (Property_truthy (Own v) = true ∧ ∃ t, type = Some t) as [-> [t ->]].
    { apply assoc_Some in E1. unfold CODE_EXAMPLES in E1.
      repeat (apply elem_of_cons in E1 as [E1|E1]);
        try (inversion E1; fail);
        injection E1 as Hk ->; (split; [reflexivity|]);
        destruct type as [t|]; try discriminate Hk; now exists t. }
    simpl. split; [intros [e [=]]|].
    intros (_ & H & _). destruct H. apply assoc_Some in E1.
    apply (list_elem_of_fmap_2 fst CODE_EXAMPLES (t, v)), E1. }
  destruct (assoc (template type) Object_prototype) as [b|] eqn:E2.
  { assert (∃ t, type = Some t) as [t ->].
    { destruct type as [t|]; [now exists t|]. vm_compute in E2. discriminate. }
    simpl. split; [intros [e [=]]|].
    intros (_ & _ & H). destruct H. apply assoc_Some in E2.
    apply (list_elem_of_fmap_2 fst Object_prototype (t, b)), E2. }
  simpl. split; [|intros _; eexists; reflexivity].
  intros _. split; [|split].
  - destruct type as [t|]; simpl; [congruence | discriminate].
  - exact (assoc_None _ CODE_EXAMPLES E1).
  - exact (assoc_None _ Object_prototype E2).
Qed.

(** With the content of the module, a tool call is flagged as an error in
    exactly three situations: the tool name is not listed; the tool is
    [get_code_example] and the key it looks up, [undefined] for an absent
    [type], is neither ["all"], nor a catalog key, nor a member of
    [Object.prototype]; the tool is [validate_angular_code] and [code] is
    absent.  In particular [get_angular_guidelines] never fails, and
    [get_code_example] answers without error for a key such as
    [toString]. *)
Theorem call_tool_flagged_iff
    (name : string) (args : option (gmap string string)) :
  isError (call_tool startup name args) = Some true
  ↔ name ∉ tool_name <$> list_tools
    ∨ (name = "get_code_example"
       ∧ template (arg args "type") ∉ answered_example_keys)
    ∨ (name = "validate_angular_code" ∧ arg args "code" = None).
Proof.
  change (tool_name <$> list_tools) with tool_names.
  destruct (decide (name = "get_angular_guidelines")) as [->|N1].
  { split; [intros [=]|].
    intros [H|[[[=] _]|[[=] _]]]. destruct H. unfold tool_names. left. }
  destruct (decide (name = "get_code_example")) as [->|N2].
  { assert (call_tool startup "get_code_example" args
            = match getCodeExample startup (arg args "type") with
              | Return response => response
              | Throw error => error_result ("Error: " +:+ message error)
              end) as -> by reflexivity.
    rewrite <- getCodeExample_throws_iff. split.
    - intros H. right. left. split; [reflexivity|].
      destruct (getCodeExample startup (arg args "type")) as [r|e] eqn:E;
        [|now exists e].
      exfalso. revert E H. unfold getCodeExample.
      destruct (bool_decide _); [intros [= <-]; discriminate|].
      destruct (negb _); [discriminate|].
      destruct (arg args "type"); [intros [= <-]; discriminate | discriminate].
    - intros [H|[[_ [e ->]]|[[=] _]]]; [|reflexivity].
      destruct H. unfold tool_names. right. left. }
  destruct (decide (name = "validate_angular_code")) as [->|N3].
  { assert (call_tool startup "validate_angular_code" args
            = match validateCode startup (arg args "code") (arg args "type") with
              | Return response => response
              | Throw error => error_result ("Error: " +:+ message error)
              end) as -> by reflexivity.
    destruct (arg args "code") as [code|]; simpl.
    - split; [intros [=]|]. intros [H|[[[=] _]|[_ [=]]]].
      destruct H. unfold tool_names. do 2 right. left.
    - split; [intros _; right; right; now split | reflexivity]. }
  assert (name ∉ tool_names) as Hun.
  { unfold tool_names. rewrite !not_elem_of_cons.
    repeat split; try assumption. apply not_elem_of_nil. }
  split; [intros _; now left|]. intros _.
  unfold call_tool. now rewrite !bool_decide_eq_false_2 by assumption.
Qed.

Lemma guidelines_answer_within_document_witness :
  ∃ body,
    getAngularGuidelines sample_store (Some "templates") = text_result body
    ∧ body ≠ "".
Proof.
  destruct (guidelines_answer_within_document sample_store (Some "templates"))
    as (body & E & _ & Hne).
  exists body. split; [exact E|]. apply Hne. discriminate.
Defined.

(** For a recognised section name and any guideline document, the answer
    is always one of two: the whole document, when no line has the heading
    phrase; or the first line [h] that has it followed by the lines [body]
    after it, none of which is a boundary, where what remains of the document
    is empty or begins with a boundary.  So the answer never reaches into the
    next section. *)
Theorem section_answer_cases (st : ContentStore) (section title : string) :
  (section, title) ∈ sectionMap →
  (Forall (λ line, includes line title = false) (split LF (guidelines st))
   ∧ getAngularGuidelines st (Some section) = text_result (guidelines st))
  ∨ ∃ before h body tail,
      split LF (guidelines st) = before ++ h :: body ++ tail
      ∧ Forall (λ line, includes line title = false) before
      ∧ includes h title = true
      ∧ Forall (λ line, boundary title line = false) body
      ∧ (tail = [] ∨ ∃ b after, tail = b :: after ∧ boundary title b = true)
      ∧ getAngularGuidelines st (Some section)
        = text_result (join nl (h :: body)).
Proof.
  intros Hin. rewrite (getAngularGuidelines_recognized st section title Hin).
  destruct (extractSection_cases (guidelines st) title)
    as [[H ->]|(before & h & body & tail & E & Hb & Hh & Hbody & Ht & ->)].
  - left. now split.
  - right. exists before, h, body, tail. repeat split; assumption.
Qed.

Lemma section_answer_cases_witness :
  (Forall (λ line, includes line "Components" = false)
     (split LF (guidelines sample_store))
   ∧ getAngularGuidelines sample_store (Some "components")
     = text_result (guidelines sample_store))
  ∨ ∃ before h body tail,
      split LF (guidelines sample_store) = before ++ h :: body ++ tail
      ∧ Forall (λ line, includes line "Components" = false) before
      ∧ includes h "Components" = true
      ∧ Forall (λ line, boundary "Components" line = false) body
      ∧ (tail = [] ∨ ∃ b after, tail = b :: after
                                ∧ boundary "Components" b = true)
      ∧ getAngularGuidelines sample_store (Some "components")
        = text_result (join nl (h :: body)).
Proof.
  apply (section_answer_cases sample_store "components" "Components").
  unfold sectionMap. do 2 right. left.
Defined.

(** ** The listings against the dispatch *)

(** What [list_tools] advertises is what [call_tool] honours: a call of a
    listed tool whose arguments respect the tool's [inputSchema] is never
    flagged as an error, and a call of a listed tool that lacks a required
    argument always is. *)
Theorem listed_tools_honour_their_schema
    (tool : ToolSpec) (args : option (gmap string string)) :
  tool ∈ list_tools →
  (conforms (inputSchema tool) args →
   isError (call_tool startup (tool_name tool) args) = None)
  ∧ (∀ key,
       key ∈ default [] (required (inputSchema tool)) →
       arg args key = None →
       isError (call_tool startup (tool_name tool) args) = Some true).
Proof.
  intros Hin. unfold list_tools in Hin.
  repeat (apply elem_of_cons in Hin as [->|Hin]); [| | |inversion Hin]; simpl.
  - split; [reflexivity|]. intros key H. inversion H.
  - assert (call_tool startup "get_code_example" args
            = match getCodeExample startup (arg args "type") with
              | Return response => response
              | Throw error => error_result ("Error: " +:+ message error)
              end) as -> by reflexivity.
    split.
    + intros [Hreq Henum]. simpl in *.
      destruct (Hreq "type") as [v Hv]; [left|].
      specialize (Henum "type" _ _ v ltac:(left) eq_refl Hv).
      rewrite Hv.
      repeat (apply elem_of_cons in Henum as [->|Henum]);
        [reflexivity..|inversion Henum].
    + intros key Hk Harg. apply list_elem_of_singleton in Hk as ->.
      rewrite Harg. reflexivity.
  - assert (call_tool startup "validate_angular_code" args
            = match validateCode startup (arg args "code") (arg args "type") with
              | Return response => response
              | Throw error => error_result ("Error: " +:+ message error)
              end) as -> by reflexivity.
    split.
    + intros [Hreq _]. simpl in *.
      destruct (Hreq "code") as [v ->]; [left|]. reflexivity.
    + intros key Hk Harg. apply list_elem_of_singleton in Hk as ->.
      rewrite Harg. reflexivity.
Qed.

Lemma listed_tools_honour_their_schema_witness :
  let tool :=
    {| tool_name := "get_code_example";
       tool_description := "Get code examples following Angular best practices";
       inputSchema :=
         {| schema_type := "object";
            properties :=
              [ ("type",
                 {| property_type := "string";
                    property_description := "Type of code example to get";
                    enum := Some [ "component"; "service"; "all" ] |}) ];
            required := Some [ "type" ] |} |} in
  isError (call_tool startup (tool_name tool) (Some {[ "type" := "service" ]}))
  = None
  ∧ isError (call_tool startup (tool_name tool) (Some {[ "kind" := "service" ]}))
    = Some true.
Proof.
  intros tool.
  assert (tool ∈ list_tools) as Hin by (unfold list_tools; right; left).
  split.
  - apply (proj1 (listed_tools_honour_their_schema tool
                    (Some {[ "type" := "service" ]}) Hin)).
    split.
    + intros key Hk. apply list_elem_of_singleton in Hk as ->.
      exists "service". reflexivity.
    + intros key p values v Hp He Hv.
      apply list_elem_of_singleton in Hp. injection Hp as -> ->.
      injection He as <-. vm_compute in Hv. injection Hv as <-.
      right. left.
  - apply (proj2 (listed_tools_honour_their_schema tool
                    (Some {[ "kind" := "service" ]}) Hin) "type").
    + left.
    + reflexivity.
Defined.

(** [get_prompt] answers exactly for the names [list_prompts] lists, whatever
    the arguments, required ones included: it never checks them.  The answer
    is one message of role [user] whose text contains the guideline document
    of the store. *)
Theorem listed_prompts_always_expand
    (st : ContentStore) (name : string) (args : option (gmap string string)) :
  (name ∈ prompt_name <$> list_prompts
   ↔ ∃ r, get_prompt st name args = Return r)
  ∧ (∀ r, get_prompt st name args = Return r →
       ∃ body pre post,
         r = {| messages :=
                  [ {| role := "user";
                       message_content := {| type := "text"; text := body |}
                    |} ] |}
         ∧ body = pre +:+ guidelines st +:+ post).
Proof.
  change (prompt_name <$> list_prompts) with prompt_names.
  unfold get_prompt, prompt_names.
  destruct (decide (name = "angular_code_review")) as [->|N1].
  { rewrite bool_decide_eq_true_2 by reflexivity. split.
    - split; [intros _; eexists; reflexivity | intros _; left].
    - intros r [= <-]. eexists.
      exists ("Please review this Angular/TypeScript code for best practices compliance:"
              +:+ nl +:+ nl +:+ template (arg args "code") +:+ nl +:+ nl
              +:+ "Check against these guidelines:" +:+ nl),
             (nl +:+ nl
              +:+ "Provide specific feedback on what can be improved.").
      split; [reflexivity|]. now rewrite !append_assoc. }
  rewrite (bool_decide_eq_false_2 _ N1).
  destruct (decide (name = "create_angular_component")) as [->|N2].
  { rewrite bool_decide_eq_true_2 by reflexivity. split.
    - split; [intros _; eexists; reflexivity | intros _; right; left].
    - intros r [= <-]. eexists.
      exists ("Create a new Angular component named " +:+ dq
              +:+ template (arg args "componentName") +:+ dq
              +:+ " following these best practices:" +:+ nl).
      eexists. split; [reflexivity|]. now rewrite !append_assoc. }
  rewrite (bool_decide_eq_false_2 _ N2). split.
  - split; [|intros [r [=]]].
    intros H. repeat (apply elem_of_cons in H as [H|H]); try congruence.
    inversion H.
  - intros r [=].
Qed.

Lemma listed_prompts_always_expand_witness :
  ∃ body pre post,
    get_prompt sample_store "angular_code_review" None
    = Return (user_message body)
    ∧ body = pre +:+ guidelines sample_store +:+ post.
Proof.
  destruct (proj2 (listed_prompts_always_expand
                     sample_store "angular_code_review" None)
              _ eq_refl) as (body & pre & post & E & Hb).
  exists body, pre, post. split; [|exact Hb].
  unfold user_message, text_block. rewrite <- E. reflexivity.
Defined.

(** An absent prompt argument is read as a text: a missing [code] or
    [componentName] gives the prompt of the text [undefined], and a missing
    or empty [features] gives the prompt of the text
    [Basic component structure]. *)
Theorem absent_prompt_argument_defaults
    (st : ContentStore) (m : gmap string string) :
  (m !! "code" = None →
   get_prompt st "angular_code_review" (Some m)
   = get_prompt st "angular_code_review" (Some (<["code" := "undefined"]> m)))
  ∧ (m !! "componentName" = None →
     get_prompt st "create_angular_component" (Some m)
     = get_prompt st "create_angular_component"
         (Some (<["componentName" := "undefined"]> m)))
  ∧ (m !! "features" = None ∨ m !! "features" = Some "" →
     get_prompt st "create_angular_component" (Some m)
     = get_prompt st "create_angular_component"
         (Some (<["features" := "Basic component structure"]> m))).
Proof.
  assert (∀ (a : gmap string string) key, arg (Some a) key = a !! key) as Harg
    by reflexivity.
  unfold get_prompt.
  rewrite !(bool_decide_eq_true_2 ("angular_code_review" = "angular_code_review"))
    by reflexivity.
  rewrite !(bool_decide_eq_false_2
              ("create_angular_component" = "angular_code_review"))
    by discriminate.
  rewrite !(bool_decide_eq_true_2
              ("create_angular_component" = "create_angular_component"))
    by reflexivity.
  rewrite !Harg. split; [|split].
  - intros H. now rewrite lookup_insert_eq, H.
  - intros H. rewrite lookup_insert_eq, H.
    now rewrite lookup_insert_ne by discriminate.
  - intros H. rewrite lookup_insert_eq.
    rewrite lookup_insert_ne by discriminate.
    destruct H as [-> | ->]; reflexivity.
Qed.

Lemma absent_prompt_argument_defaults_witness :
  get_prompt startup "create_angular_component"
    (Some {[ "componentName" := "UserCard"; "features" := "" ]})
  = get_prompt startup "create_angular_component"
      (Some (<["features" := "Basic component structure"]>
               {[ "componentName" := "UserCard"; "features" := "" ]})).
Proof.
  apply (proj2 (proj2 (absent_prompt_argument_defaults startup
                  {[ "componentName" := "UserCard"; "features" := "" ]}))).
  right. vm_compute. reflexivity.
Defined.

(** ** Single entries of the example catalog *)

(** For a key other than ["all"] that is empty or begins with an ASCII
    character and is an own property of the catalog, whatever the catalog: a
    non-empty example is answered under the heading made of the key with its
    first letter in upper case; an empty example counts as missing and the
    handler throws.  Own properties come before the members of
    [Object.prototype]. *)
Theorem code_example_of_catalog_key
    (st : ContentStore) (key example : string) :
  starts_ascii key = true →
  key ≠ "all" →
  assoc key (examples st) = Some example →
  (example ≠ "" →
   getCodeExample st (Some key)
   = Return {| content :=
                 [ {| type := "text";
                      text := "# " +:+ capitalize key +:+ " Example" +:+ nl
                              +:+ example |} ];
               isError := None |})
  ∧ (example = "" →
     getCodeExample st (Some key)
     = Throw (Error ("No example available for type: " +:+ key))).
Proof.
  intros _ Hall Hkey. unfold getCodeExample.
  rewrite bool_decide_eq_false_2 by congruence.
  unfold get. simpl template. rewrite Hkey. simpl.
  split; intros H.
  - destruct example; [congruence | reflexivity].
  - subst example. reflexivity.
Qed.

Lemma code_example_of_catalog_key_witness :
  getCodeExample startup (Some "component")
  = Return (text_result ("# Component Example" +:+ nl +:+ component_example))
  ∧ getCodeExample {| guidelines := ""; examples := [ ("toString", "") ] |}
      (Some "toString")
    = Throw (Error "No example available for type: toString").
Proof.
  split.
  - refine (proj1 (code_example_of_catalog_key startup "component"
                     component_example _ _ _) _);
      [reflexivity | discriminate | reflexivity | vm_compute; discriminate].
  - refine (proj2 (code_example_of_catalog_key
                     {| guidelines := ""; examples := [ ("toString", "") ] |}
                     "toString" "" _ _ _) _);
      [reflexivity | discriminate | reflexivity | reflexivity].
Defined.

(** ** Findings of a snippet inside a larger text *)

Lemma includes_embedded (a needle pre post : string) :
  includes a needle = true → includes (pre +:+ a +:+ post) needle = true.
Proof.
  intros H. apply includes_inv in H as (p & q & ->).
  replace (pre +:+ (p +:+ needle +:+ q) +:+ post)
    with ((pre +:+ p) +:+ needle +:+ (q +:+ post))
    by now rewrite !append_assoc.
  apply includes_append.
Qed.

Lemma excludes_embedded (a needle pre post : string) :
  includes (pre +:+ a +:+ post) needle = false → includes a needle = false.
Proof.
  intros H. destruct (includes a needle) eqn:E; [|reflexivity].
  now rewrite (includes_embedded a needle pre post E) in H.
Qed.

(** The rules that test for the presence of a pattern and the rules that
    test for its absence behave oppositely when a snippet is put inside a
    larger text, under the same category: a finding of one of the five
    presence rules stays, and a finding of one of the four absence rules on
    the larger text was already a finding on the snippet. *)
Theorem findings_of_embedded_snippet
    (a pre post : string) (type : option string) (issue : string) :
  (issue ∈ [ Issue.any_type; Issue.structural_directives; Issue.ngClass;
             Issue.ngStyle; Issue.decorators ] →
   issue ∈ findings a type →
   issue ∈ findings (pre +:+ a +:+ post) type)
  ∧ (issue ∈ [ Issue.OnPush; Issue.signals; Issue.inject; Issue.providedIn ] →
     issue ∈ findings (pre +:+ a +:+ post) type →
     issue ∈ findings a type).
Proof.
  split; intros Hi.
  - repeat (apply elem_of_cons in Hi as [->|Hi]); [| | | | |inversion Hi].
    + rewrite !(finding_iff_condition _ _ (λ code _, includes code "any"))
        by (unfold rule_table; left).
      apply includes_embedded.
    + rewrite !(finding_iff_condition _ _
                  (λ code _, includes code "*ngIf" || includes code "*ngFor"
                             || includes code "*ngSwitch"))
        by (unfold rule_table; right; left).
      rewrite !orb_true_iff.
      intros [[H|H]|H]; eauto using includes_embedded.
    + rewrite !(finding_iff_condition _ _ (λ code _, includes code "ngClass"))
        by (unfold rule_table; do 2 right; left).
      apply includes_embedded.
    + rewrite !(finding_iff_condition _ _ (λ code _, includes code "ngStyle"))
        by (unfold rule_table; do 3 right; left).
      apply includes_embedded.
    + rewrite !(finding_iff_condition _ _
                  (λ code _, includes code "@Input()"
                             || includes code "@Output()"))
        by (unfold rule_table; do 4 right; left).
      rewrite !orb_true_iff. intros [H|H]; eauto using includes_embedded.
  - repeat (apply elem_of_cons in Hi as [->|Hi]); [| | | |inversion Hi].
    + rewrite !(finding_iff_condition _ _
                  (λ code type,
                     bool_decide (type = Some "component")
                     && negb (includes code "ChangeDetectionStrategy.OnPush")))
        by (unfold rule_table; do 5 right; left).
      rewrite !andb_true_iff, !negb_true_iff.
      intros [? H]; eauto using excludes_embedded.
    + rewrite !(finding_iff_condition _ _
                  (λ code type,
                     bool_decide (type = Some "component")
                     && (negb (includes code "signal(")
                         && negb (includes code "computed("))))
        by (unfold rule_table; do 6 right; left).
      rewrite !andb_true_iff, !negb_true_iff.
      intros [? [H H']]; eauto using excludes_embedded.
    + rewrite !(finding_iff_condition _ _
                  (λ code type,
                     bool_decide (type = Some "service")
                     && negb (includes code "inject(")))
        by (unfold rule_table; do 7 right; left).
      rewrite !andb_true_iff, !negb_true_iff.
      intros [? H]; eauto using excludes_embedded.
    + rewrite !(finding_iff_condition _ _
                  (λ code type,
                     bool_decide (type = Some "service")
                     && negb (includes code "providedIn: 'root'")))
        by (unfold rule_table; do 8 right; left).
      rewrite !andb_true_iff, !negb_true_iff.
      intros [? H]; eauto using excludes_embedded.
Qed.

Lemma findings_of_embedded_snippet_witness :
  Issue.ngClass
  ∈ findings ("<div>" +:+ "<p [ngClass]=c></p>" +:+ "</div>") (Some "component").
Proof.
  refine (proj1 (findings_of_embedded_snippet "<p [ngClass]=c></p>"
                   "<div>" "</div>" (Some "component") Issue.ngClass) _ _).
  - do 2 right. left.
  - apply (bool_decide_unpack _). vm_compute. exact I.
Defined.
